(** * Schedule Monitoring Calculator: a shallow embedding of [app.py]

    The development follows the source file top-down:
    - [datetime]: the part of Python's [datetime] module the program relies
      on ([date], [time], their comparisons, [weekday], date subtraction
      and the two [strptime] formats);
    - [pystr]: [str.strip] and [str.split];
    - the program itself: [is_weekday], [is_normal_window], [base_hours],
      [Entry], [Schedule] with its methods, and [parse_date_time];
    - the properties of the specification, stated on these definitions.

    Conventions.  Python [int]s are [Z].  The hour amounts are Python
    floats, but the only float operations of the program are additions
    that start from [0.0] and add [2.0] or [4.0], at most once per stored
    entry, that is once per day of the calendar; every value is an even
    integer far below [2^53], where binary64 addition is exact, so hour
    amounts are represented by the integer they denote ([4] for [4.0]).
    A [str] is a [string] whose characters are the code points below 256.
    A call that can raise returns a [result]. *)

From Stdlib Require Import ZArith String Ascii.
From stdpp Require Import base decidable option numbers list sorting countable gmap.

Local Open Scope Z_scope.

(** ** Exceptions *)

Inductive exn : Type :=
  | ValueError (msg : string)
  | KeyError
  | IndexError.

Inductive result (A : Type) : Type :=
  | Ret (a : A)
  | Raise (e : exn).
Arguments Ret {A} a.
Arguments Raise {A} e.

(** [result] is an exception monad; the binding notation [x ← r; k] and
    [mapM] (a comprehension whose body may raise) are the library's. *)
Global Instance result_ret : MRet result := fun A a => Ret a.
Global Instance result_bind : MBind result := fun A B k r =>
  match r with
  | Ret a => k a
  | Raise e => Raise e
  end.

(** ** The [datetime] module *)

Module datetime.

(** [datetime.date]: year, month, day.  A Python [date] object always
    satisfies [date_ok]; the constructor raises [ValueError] otherwise. *)
Record date : Type := mk_date { year : Z; month : Z; day : Z }.

(** A naive [datetime.time]. *)
Record time : Type :=
  mk_time { hour : Z; minute : Z; second : Z; microsecond : Z }.

(** [datetime.timedelta], as produced by subtracting two dates. *)
Record timedelta : Type :=
  mk_timedelta { days : Z; seconds : Z; microseconds : Z }.

Definition _is_leap (y : Z) : bool :=
  (y mod 4 =? 0) && (negb (y mod 100 =? 0) || (y mod 400 =? 0)).

Definition _days_before_year (yr : Z) : Z :=
  let y := yr - 1 in
  y * 365 + y / 4 - y / 100 + y / 400.

(** The table [_DAYS_IN_MONTH]; index 0 holds the placeholder [-1]. *)
Definition _DAYS_IN_MONTH (m : Z) : Z :=
  match m with
  | 1 => 31 | 2 => 28 | 3 => 31 | 4 => 30 | 5 => 31 | 6 => 30
  | 7 => 31 | 8 => 31 | 9 => 30 | 10 => 31 | 11 => 30 | 12 => 31
  | _ => -1
  end.

(** The table [_DAYS_BEFORE_MONTH]. *)
Definition _DAYS_BEFORE_MONTH (m : Z) : Z :=
  match m with
  | 1 => 0 | 2 => 31 | 3 => 59 | 4 => 90 | 5 => 120 | 6 => 151
  | 7 => 181 | 8 => 212 | 9 => 243 | 10 => 273 | 11 => 304 | 12 => 334
  | _ => -1
  end.

Definition _days_in_month (y m : Z) : Z :=
  if (m =? 2) && _is_leap y then 29 else _DAYS_IN_MONTH m.

Definition _days_before_month (y m : Z) : Z :=
  _DAYS_BEFORE_MONTH m + (if (2 <? m) && _is_leap y then 1 else 0).

Definition _ymd2ord (y m d : Z) : Z :=
  _days_before_year y + _days_before_month y m + d.

Definition MINYEAR : Z := 1.
Definition MAXYEAR : Z := 9999.

(** [_check_date_fields]: what the [date] constructor accepts. *)
Definition date_ok (d : date) : bool :=
  (MINYEAR <=? year d) && (year d <=? MAXYEAR)
  && (1 <=? month d) && (month d <=? 12)
  && (1 <=? day d) && (day d <=? _days_in_month (year d) (month d)).

(** [_check_time_fields]: what the [time] constructor accepts. *)
Definition time_ok (t : time) : bool :=
  (0 <=? hour t) && (hour t <=? 23)
  && (0 <=? minute t) && (minute t <=? 59)
  && (0 <=? second t) && (second t <=? 59)
  && (0 <=? microsecond t) && (microsecond t <=? 999999).

Definition toordinal (d : date) : Z := _ymd2ord (year d) (month d) (day d).

(** Monday is 0, Sunday is 6. *)
Definition weekday (d : date) : Z := (toordinal d + 6) mod 7.

(** [date.__sub__] on two dates. *)
Definition date_sub (a b : date) : timedelta :=
  mk_timedelta (toordinal a - toordinal b) 0 0.

(** Comparison of dates: the tuples (year, month, day), lexicographically. *)
Definition date_cmp (a b : date) : comparison :=
  match year a ?= year b with
  | Eq => match month a ?= month b with
          | Eq => day a ?= day b
          | c => c
          end
  | c => c
  end.

Definition date_ltb (a b : date) : bool :=
  match date_cmp a b with Lt => true | _ => false end.
Definition date_leb (a b : date) : bool :=
  match date_cmp a b with Gt => false | _ => true end.
Definition date_eqb (a b : date) : bool :=
  match date_cmp a b with Eq => true | _ => false end.

(** Comparison of naive times: (hour, minute, second, microsecond). *)
Definition time_cmp (a b : time) : comparison :=
  match hour a ?= hour b with
  | Eq => match minute a ?= minute b with
          | Eq => match second a ?= second b with
                  | Eq => microsecond a ?= microsecond b
                  | c => c
                  end
          | c => c
          end
  | c => c
  end.

Definition time_ltb (a b : time) : bool :=
  match time_cmp a b with Lt => true | _ => false end.
Definition time_leb (a b : time) : bool :=
  match time_cmp a b with Gt => false | _ => true end.

(** [time(h, m)]: seconds and microseconds default to 0. *)
Definition time_hm (h m : Z) : time := mk_time h m 0 0.

End datetime.
Import datetime.

(** ** [str.strip] and [str.split] *)

Module pystr.

(** [str.isspace] on one character, for the code points below 256:
    U+0009..U+000D, U+001C..U+001F, U+0020, U+0085 and U+00A0. *)
Definition is_space (c : ascii) : bool :=
  let n := Z.of_N (N_of_ascii c) in
  ((9 <=? n) && (n <=? 13)) || ((28 <=? n) && (n <=? 31))
  || (n =? 32) || (n =? 133) || (n =? 160).

Definition is_empty (s : string) : bool :=
  match s with EmptyString => true | String _ _ => false end.

Fixpoint lstrip (s : string) : string :=
  match s with
  | EmptyString => EmptyString
  | String c s' => if is_space c then lstrip s' else s
  end.

Fixpoint rstrip (s : string) : string :=
  match s with
  | EmptyString => EmptyString
  | String c s' =>
      let r := rstrip s' in
      if is_space c && is_empty r then EmptyString else String c r
  end.

Definition strip (s : string) : string := rstrip (lstrip s).

(** [s.split()]: the maximal runs of characters that are not spaces. *)
Fixpoint split (s : string) : list string :=
  match s with
  | EmptyString => []
  | String c s' =>
      if is_space c then split s'
      else match s' with
           | EmptyString => [String c EmptyString]
           | String c' _ =>
               if is_space c' then String c EmptyString :: split s'
               else match split s' with
                    | w :: ws => String c w :: ws
                    | [] => [String c EmptyString]
                    end
           end
  end.

End pystr.
Import pystr.

(** ** [datetime.strptime] for the formats [%m/%d/%Y] and [%H%M]

    [_strptime] turns the format into a regular expression, takes the first
    match that backtracking finds at the start of the text, and raises
    [ValueError] when nothing matches or when text remains after the match.
    A pattern is modelled by the list of its matches in the order in which
    backtracking tries them, each with the value of the matched digits and
    the text that is left. *)

Module strptime.

Definition pattern (A : Type) : Type := string -> list (A * string).

(** One character in the range [lo]..[hi]; its value as a digit. *)
Definition digit (lo hi : ascii) : pattern Z := fun s =>
  match s with
  | EmptyString => []
  | String c s' =>
      let n := Z.of_N (N_of_ascii c) in
      if (Z.of_N (N_of_ascii lo) <=? n) && (n <=? Z.of_N (N_of_ascii hi))
      then [(n - 48, s')] else []
  end.

(** A literal character. *)
Definition lit (a : ascii) : pattern Z := fun s =>
  match s with
  | EmptyString => []
  | String c s' => if Ascii.eqb c a then [(0, s')] else []
  end.

(** [p|q]: the matches of [p], then those of [q]. *)
Definition alt {A} (p q : pattern A) : pattern A := fun s => p s ++ q s.

(** [pq]. *)
Definition cat {A B C} (f : A -> B -> C) (p : pattern A) (q : pattern B)
    : pattern C := fun s =>
  x ← p s; y ← q x.2; [(f x.1 y.1, y.2)].

(** Two digits read as a number. *)
Definition two (p q : pattern Z) : pattern Z :=
  cat (fun a b => 10 * a + b) p q.

Definition any_digit : pattern Z := digit "0" "9".

(** [%m]: [1[0-2]|0[1-9]|[1-9]]. *)
Definition re_m : pattern Z :=
  alt (two (digit "1" "1") (digit "0" "2"))
    (alt (two (digit "0" "0") (digit "1" "9")) (digit "1" "9")).

(** [%d]: [3[0-1]|[1-2]\d|0[1-9]|[1-9]| [1-9]]. *)
Definition re_d : pattern Z :=
  alt (two (digit "3" "3") (digit "0" "1"))
    (alt (two (digit "1" "2") any_digit)
      (alt (two (digit "0" "0") (digit "1" "9"))
        (alt (digit "1" "9")
             (cat (fun _ b => b) (lit " ") (digit "1" "9"))))).

(** [%Y]: [\d\d\d\d]. *)
Definition re_Y : pattern Z :=
  cat (fun a b => 100 * a + b) (two any_digit any_digit)
      (two any_digit any_digit).

(** [%H]: [2[0-3]|[0-1]\d|\d]. *)
Definition re_H : pattern Z :=
  alt (two (digit "2" "2") (digit "0" "3"))
    (alt (two (digit "0" "1") any_digit) any_digit).

(** [%M]: [[0-5]\d|\d]. *)
Definition re_M : pattern Z :=
  alt (two (digit "0" "5") any_digit) any_digit.

(** The expression of [%m/%d/%Y]; the value is (month, day, year). *)
Definition re_mdY : pattern (Z * Z * Z) :=
  cat (fun md y => (md, y))
      (cat (fun m dd => (m, dd))
           (cat (fun m _ => m) re_m (lit "/")) re_d)
      (cat (fun _ y => y) (lit "/") re_Y).

(** The expression of [%H%M]; the value is (hour, minute). *)
Definition re_HM : pattern (Z * Z) := cat (fun h m => (h, m)) re_H re_M.

(** [re.match] followed by the test that no text remains. *)
Definition full_match {A} (p : pattern A) (s : string) : result A :=
  match head (p s) with
  | None => Raise (ValueError "time data does not match format")
  | Some (v, rest) =>
      if is_empty rest then Ret v
      else Raise (ValueError "unconverted data remains")
  end.

(** [datetime.strptime(s, "%m/%d/%Y").date()]. *)
Definition strptime_date (s : string) : result date :=
  v ← full_match re_mdY s;
  let dt := mk_date v.2 v.1.1 v.1.2 in
  if date_ok dt then Ret dt
  else Raise (ValueError "date value out of range").

(** [datetime.strptime(s, "%H%M").time()]. *)
Definition strptime_time (s : string) : result time :=
  v ← full_match re_HM s;
  let tm := time_hm v.1 v.2 in
  if time_ok tm then Ret tm
  else Raise (ValueError "time value out of range").

End strptime.
Import strptime.

Global Instance date_eq_dec : EqDecision date.
Proof. solve_decision. Defined.

Global Instance time_eq_dec : EqDecision time.
Proof. solve_decision. Defined.

Global Instance date_countable : Countable date.
Proof.
  refine (inj_countable' (fun d => (year d, month d, day d))
                         (fun '(y, m, d) => mk_date y m d) _).
  by intros [].
Defined.

(** ** The program *)

Definition WEEKDAY_START : time := time_hm 8 0.
Definition WEEKDAY_END : time := time_hm 17 0.

Definition is_weekday (d : date) : bool := weekday d <? 5.

Definition is_normal_window (d : date) (t : option time) : bool :=
  if negb (is_weekday d) then false
  else match t with
       | None => true
       | Some t => time_leb WEEKDAY_START t && time_ltb t WEEKDAY_END
       end.

Definition base_hours (is_first is_last : bool) : Z :=
  if is_first || is_last then 4 else 2.

Record Entry : Type := mk_Entry { d : date; t : option time }.

Global Instance Entry_eq_dec : EqDecision Entry.
Proof. solve_decision. Defined.

(** The relation used by [sorted] on dates. *)
Definition date_le : relation date := fun a b => date_leb a b = true.

Global Instance date_le_dec : RelDecision date_le.
Proof. intros a b. unfold date_le. apply _. Defined.

(** [sorted(keys)]: the keys in ascending order.  Python's sort is a stable
    merge sort that takes the right element only when it is smaller than
    the left one, as [list_merge] does with [date_le]. *)
Definition sorted (keys : list date) : list date := merge_sort date_le keys.

Record Schedule : Type :=
  mk_Schedule { start_date : date; end_date : date; entries : list Entry }.

(** The body of the loop of [Schedule.__init__] that fills [by_day]. *)
Definition by_day_step (start_date end_date : date)
    (by_day : gmap date (option time)) (p : date * option time)
    : gmap date (option time) :=
  let '(dt, tm) := p in
  if date_leb start_date dt && date_leb dt end_date
     && bool_decide (by_day !! dt = None)
  then <[dt := tm]> by_day
  else by_day.

(** [by_day[dt]], which raises [KeyError] on a missing key. *)
Definition by_day_get (by_day : gmap date (option time)) (dt : date)
    : result (option time) :=
  match by_day !! dt with
  | Some tm => Ret tm
  | None => Raise KeyError
  end.

(** The keys of the dictionary.  Python iterates them in insertion order; the
    only use is as the argument of [sorted], whose result does not depend on
    the order of its argument (lemma [sorted_Permutation]). *)
Definition keys (by_day : gmap date (option time)) : list date :=
  (map_to_list by_day).*1.

(** [Schedule.__init__]. *)
Definition Schedule_init (start_date end_date : date)
    (monitored_entries : list (date * option time)) : result Schedule :=
  if date_ltb end_date start_date
  then Raise (ValueError "end_date must be >= start_date")
  else
    let by_day := foldl (by_day_step start_date end_date) ∅ monitored_entries in
    es ← mapM (fun dt => tm ← by_day_get by_day dt; Ret (mk_Entry dt tm))
              (sorted (keys by_day));
    Ret (mk_Schedule start_date end_date es).

Definition dry_time (self : Schedule) : Z :=
  Z.max (days (date_sub (end_date self) (start_date self))) 0.

(** One iteration of the loop of [_split_hours] on the pair (normal, after). *)
Definition split_step (first_day last_day : date) (acc : Z * Z) (e : Entry)
    : Z * Z :=
  let '(normal, after) := acc in
  let hrs := base_hours (date_eqb (d e) first_day) (date_eqb (d e) last_day) in
  if is_normal_window (d e) (t e) then (normal + hrs, after)
  else (normal, after + hrs).

Definition _split_hours (self : Schedule) : Z * Z :=
  match entries self with
  | [] => (0, 0)
  | e0 :: _ =>
      let first_day := d e0 in
      let last_day := d (List.last (entries self) e0) in
      foldl (split_step first_day last_day) (0, 0) (entries self)
  end.

Definition monitoring_hours (self : Schedule) : Z := (_split_hours self).1.

Definition after_hours (self : Schedule) : Z := (_split_hours self).2.

Definition total_monitoring_hours (self : Schedule) : Z :=
  let '(n, a) := _split_hours self in n + a.

(** [parts[i]], which raises [IndexError] out of range. *)
Definition index (parts : list string) (i : nat) : result string :=
  match parts !! i with
  | Some p => Ret p
  | None => Raise IndexError
  end.

Definition parse_date_time (entry_str : string)
    : result (option date * option time * option string) :=
  let s := strip entry_str in
  if is_empty s then Ret (None, None, Some "Empty entry"%string)
  else
    let parts := split s in
    p0 ← index parts 0;
    match strptime_date p0 with
    | Raise (ValueError _) =>
        Ret (None, None,
             Some ("Invalid date '" ++ p0 ++ "'. Use MM/DD/YYYY.")%string)
    | Raise e => Raise e
    | Ret dt =>
        if (length parts =? 2)%nat then
          p1 ← index parts 1;
          match strptime_time p1 with
          | Raise (ValueError _) =>
              Ret (None, None,
                   Some ("Invalid time '" ++ p1 ++ "'. Use HHMM (24h).")%string)
          | Raise e => Raise e
          | Ret tm => Ret (Some dt, Some tm, None)
          end
        else if (2 <? length parts)%nat then
          Ret (None, None,
               Some ("Bad entry '" ++ s ++ "'. Use 'MM/DD/YYYY [HHMM]'.")%string)
        else Ret (Some dt, None, None)
    end.

(** ** Notions used to state the properties *)

(** Strictly earlier, for dates. *)
Definition date_lt : relation date := fun a b => date_ltb a b = true.

(** [start_date <= dt <= end_date]. *)
Definition in_range (start_date end_date dt : date) : bool :=
  date_leb start_date dt && date_leb dt end_date.

(** The time of the first pair of the input, in input order, whose date is
    [dt]. *)
Fixpoint first_time (dt : date) (l : list (date * option time))
    : option (option time) :=
  match l with
  | [] => None
  | p :: l' => if decide (p.1 = dt) then Some p.2 else first_time dt l'
  end.

(** The value of [hrs] in the iteration of [_split_hours] for the entry [e]:
    the base weight that [e] contributes. *)
Definition entry_hrs (self : Schedule) (e : Entry) : Z :=
  match entries self with
  | [] => 0
  | e0 :: _ =>
      base_hours (date_eqb (d e) (d e0))
                 (date_eqb (d e) (d (List.last (entries self) e0)))
  end.

(** The base weights of the stored entries, in order. *)
Definition weights (self : Schedule) : list Z :=
  entry_hrs self <$> entries self.

Definition sumZ (l : list Z) : Z := foldr Z.add 0 l.

(** The stored entries in the normal window, and the others. *)
Definition normal_entries (self : Schedule) : list Entry :=
  filter (fun e => is_normal_window (d e) (t e) = true) (entries self).
Definition after_entries (self : Schedule) : list Entry :=
  filter (fun e => is_normal_window (d e) (t e) = false) (entries self).

(** The tokens that are empty or made of spaces only. *)
Fixpoint whitespace_only (s : string) : bool :=
  match s with
  | EmptyString => true
  | String c s' => is_space c && whitespace_only s'
  end.

(** The four messages of [parse_date_time]. *)
Definition msg_empty : string := "Empty entry".
Definition msg_invalid_date (p0 : string) : string :=
  ("Invalid date '" ++ p0 ++ "'. Use MM/DD/YYYY.")%string.
Definition msg_invalid_time (p1 : string) : string :=
  ("Invalid time '" ++ p1 ++ "'. Use HHMM (24h).")%string.
Definition msg_bad_entry (s : string) : string :=
  ("Bad entry '" ++ s ++ "'. Use 'MM/DD/YYYY [HHMM]'.")%string.

(** ** The inputs of the examples of the specification *)

Definition ex_start : date := mk_date 2025 9 18.
Definition ex_end : date := mk_date 2025 9 20.

(** The pairs of ["09/18/2025 0700"], ["09/19/2025 1800"], ["09/20/2025"]. *)
Definition ex_entries : list (date * option time) :=
  [ (mk_date 2025 9 18, Some (time_hm 7 0));
    (mk_date 2025 9 19, Some (time_hm 18 0));
    (mk_date 2025 9 20, None) ].

(** The schedule built from [ex_entries]. *)
Definition ex_schedule : Schedule :=
  mk_Schedule ex_start ex_end
    [ mk_Entry (mk_date 2025 9 18) (Some (time_hm 7 0));
      mk_Entry (mk_date 2025 9 19) (Some (time_hm 18 0));
      mk_Entry (mk_date 2025 9 20) None ].

(** The same pairs out of order, with a second pair for 09/18 and a pair
    out of range. *)
Definition ex_unordered : list (date * option time) :=
  [ (mk_date 2025 9 19, Some (time_hm 18 0));
    (mk_date 2025 9 18, Some (time_hm 7 0));
    (mk_date 2025 9 21, None);
    (mk_date 2025 9 18, Some (time_hm 18 0));
    (mk_date 2025 9 20, None) ].

(** A token with three parts whose first part is not a date. *)
Definition ex_bad_token : string := "13/40/2025 08 00".

(** ** The rest of the program: reading the tokens *)

(** [s.split(sep)] for a separator of one character: the pieces between
    the separators, one more than there are separators. *)
Fixpoint split_on (sep : ascii) (s : string) : list string :=
  match s with
  | EmptyString => [EmptyString]
  | String c s' =>
      if Ascii.eqb c sep then EmptyString :: split_on sep s'
      else match split_on sep s' with
           | w :: ws => String c w :: ws
           | [] => [String c EmptyString]
           end
  end.

Definition load_entries_from_text (s : string) : list string :=
  strip <$> filter (fun p => is_empty (strip p) = false) (split_on "," s).

(** ** The rest of the program: the handler of the Calculate button

    The handler is the body of [if st.button("Calculate"):], a function of
    the two dates and of [raw_parts].  Its effects are the calls of the
    user interface; a run returns the list of these calls, in order, or
    fails with an exception.  A call is represented by the values it is
    given to show: the lines of an expander by the pairs or entries they
    are formatted from, a metric by its number. *)

(** What a run of the handler can fail with: an exception of [exn], or
    [TypeError] (a comparison between values of different types). *)
Inductive failure : Type :=
  | Exn (e : exn)
  | TypeError.

Inductive run (A : Type) : Type :=
  | Done (a : A)
  | Fails (f : failure).
Arguments Done {A} a.
Arguments Fails {A} f.

Global Instance run_ret : MRet run := fun A a => Done a.
Global Instance run_bind : MBind run := fun A B k r =>
  match r with
  | Done a => k a
  | Fails f => Fails f
  end.

Definition lift {A} (r : result A) : run A :=
  match r with
  | Ret a => Done a
  | Raise e => Fails (Exn e)
  end.

Inductive ui_call : Type :=
  (** [st.error(msg)] *)
  | st_error (msg : string)
  (** the expander "Ignored (out of range)" with one line per pair *)
  | st_ignored (lines : list (date * option time))
  (** the subheader "Results", the four metrics, and the expander "Counted
      entries" with one line per entry and its tag ([true] for Normal) *)
  | st_results (dry normal after total : Z) (counted : list (Entry * bool)).

(** [if err:] on the third component of the result of the parser. *)
Definition truthy (err : option string) : bool :=
  match err with
  | Some m => negb (is_empty m)
  | None => false
  end.

(** [str(err)], as the f-string of the error line formats it. *)
Definition str_of (err : option string) : string :=
  match err with
  | Some m => m
  | None => "None"
  end.

(** [sep.join(l)]. *)
Fixpoint str_join (sep : string) (l : list string) : string :=
  match l with
  | [] => EmptyString
  | [x] => x
  | x :: rest => (x ++ sep ++ str_join sep rest)%string
  end.

(** The line feed. *)
Definition nl : string := String "010" EmptyString.

(** The loop over [raw_parts], started with the lists [parsed] and
    [errors]. *)
Fixpoint parse_all (raw_parts : list string)
    (parsed : list (option date * option time)) (errors : list string)
    : run (list (option date * option time) * list string) :=
  match raw_parts with
  | [] => Done (parsed, errors)
  | p :: rest =>
      r ← lift (parse_date_time p);
      let '(od, tm, err) := r in
      if truthy err
      then parse_all rest parsed (errors ++ [(p ++ ": " ++ str_of err)%string])
      else parse_all rest (parsed ++ [(od, tm)]) errors
  end.

(** The comprehensions [[(d, t) for d, t in parsed if start <= d <= end]]
    ([keep] is [true]) and [... if not (start <= d <= end)] ([keep] is
    [false]).  Comparing a date with [None] raises [TypeError]. *)
Fixpoint select (keep : bool) (start_ end_ : date)
    (parsed : list (option date * option time))
    : run (list (date * option time)) :=
  match parsed with
  | [] => Done []
  | (od, tm) :: rest =>
      match od with
      | None => Fails TypeError
      | Some dt =>
          l ← select keep start_ end_ rest;
          Done (if Bool.eqb (date_leb start_ dt && date_leb dt end_) keep
                then (dt, tm) :: l else l)
      end
  end.

(** [a < b] on two pairs: the first components decide unless they are
    equal; then the second ones do, and [None] can be compared with [None]
    only (two equal pairs are not smaller than one another). *)
Definition pair_lt (a b : date * option time) : run bool :=
  if decide (a.1 = b.1) then
    match a.2, b.2 with
    | None, None => Done false
    | Some x, Some y => if decide (x = y) then Done false
                        else Done (time_ltb x y)
    | _, _ => Fails TypeError
    end
  else Done (date_ltb a.1 b.1).

(** [sorted(out_range)], with the comparison that can fail.  Python's sort
    is a stable sort that compares with [<] only; it is modelled by a
    stable insertion sort.  The outcome is a function of the list, not of
    the comparisons the sort chooses to make (lemma [sorted_pairs_spec]): it
    fails exactly when the list holds two pairs with one date, one with a
    time and one without, which no sort can order without comparing them. *)
Fixpoint insert_sorted (x : date * option time)
    (l : list (date * option time)) : run (list (date * option time)) :=
  match l with
  | [] => Done [x]
  | y :: l' =>
      b ← pair_lt y x;
      if b : bool then r ← insert_sorted x l'; Done (y :: r)
      else Done (x :: y :: l')
  end.

Fixpoint sorted_pairs (l : list (date * option time))
    : run (list (date * option time)) :=
  match l with
  | [] => Done []
  | x :: l' => r ← sorted_pairs l'; insert_sorted x r
  end.

(** The body of [if st.button("Calculate"):]. *)
Definition calculate (start_ end_ : date) (raw_parts : list string)
    : run (list ui_call) :=
  if date_ltb end_ start_ then
    Done [st_error "End date must be the same or after start date."]
  else
    match raw_parts with
    | [] => Done [st_error "Please provide at least one monitored date."]
    | _ :: _ =>
        pe ← parse_all raw_parts [] [];
        match pe.2 with
        | _ :: _ =>
            Done [st_error ("Some entries were invalid:" ++ nl
                            ++ str_join nl pe.2)%string]
        | [] =>
            in_rng ← select true start_ end_ pe.1;
            out_rng ← select false start_ end_ pe.1;
            shown ← match out_rng with
                    | [] => Done []
                    | _ :: _ => l ← sorted_pairs out_rng; Done [st_ignored l]
                    end;
            match in_rng with
            | [] =>
                Done (shown ++ [st_error
                  "No valid monitored dates within the date range."])
            | _ :: _ =>
                sched ← lift (Schedule_init start_ end_ in_rng);
                Done (shown ++
                  [st_results (dry_time sched) (monitoring_hours sched)
                     (after_hours sched) (total_monitoring_hours sched)
                     ((fun e => (e, is_normal_window (d e) (t e)))
                        <$> entries sched)])
            end
        end
    end.

(** ** Notions used to state the further properties *)


(** The character [a] occurs in [s]. *)
Fixpoint has_char (a : ascii) (s : string) : bool :=
  match s with
  | EmptyString => false
  | String c s' => Ascii.eqb c a || has_char a s'
  end.

(** The tokens written one after the other, separated by a comma and a
    space, as in the placeholder of the text area. *)
Fixpoint join_comma (toks : list string) : string :=
  match toks with
  | [] => EmptyString
  | [x] => x
  | x :: rest => (x ++ ", " ++ join_comma rest)%string
  end.

(** A token as [load_entries_from_text] returns them. *)
Definition clean_token (tok : string) : Prop :=
  tok <> EmptyString /\ strip tok = tok /\ has_char "," tok = false.


(** The total as a function of the number of stored entries. *)
Definition total_of_count (n : nat) : Z :=
  match n with
  | O => 0
  | S O => 4
  | _ => 2 * Z.of_nat n + 4
  end.

(** The stored entries as pairs, the form of the input of the constructor. *)
Definition entry_pairs (self : Schedule) : list (date * option time) :=
  (fun e => (d e, t e)) <$> entries self.

(** The largest ordinal of a date: [date.max.toordinal()]. *)
Definition MAXORDINAL : Z := 3652059.

(** The digit [k] as a character. *)
Definition digit_char (k : Z) : ascii := ascii_of_N (Z.to_N (48 + k)).

(** A number below 100 written with two digits. *)
Definition two_digits (n : Z) : string :=
  String (digit_char (n / 10)) (String (digit_char (n mod 10)) EmptyString).

(** A number below 10000 written with four digits. *)
Definition four_digits (n : Z) : string :=
  (two_digits (n / 100) ++ two_digits (n mod 100))%string.

(** A date written as MM/DD/YYYY, the form the program asks for. *)
Definition format_date (dt : date) : string :=
  (two_digits (month dt) ++ "/" ++ two_digits (day dt) ++ "/"
   ++ four_digits (year dt))%string.

(** Hour and minute written as HHMM. *)
Definition format_hhmm (h m : Z) : string :=
  (two_digits h ++ two_digits m)%string.

(** The first match of a pattern on a text, in the order of backtracking. *)
Definition first_match {A} (p : pattern A) (s : string) (v : A) (r : string)
    : Prop :=
  exists tl, p s = (v, r) :: tl.

(** No character of the text is a space. *)
Fixpoint no_space (s : string) : bool :=
  match s with
  | EmptyString => true
  | String c s' => negb (is_space c) && no_space s'
  end.

(** The pairs of the tokens that the parser accepts, in order. *)
Definition parsed_pairs (raw_parts : list string)
    : list (date * option time) :=
  omap (fun p => match parse_date_time p with
                 | Ret (Some dt, tm, None) => Some (dt, tm)
                 | _ => None
                 end) raw_parts.

(** The error lines of the tokens that the parser rejects, in order. *)
Definition error_lines (raw_parts : list string) : list string :=
  omap (fun p => match parse_date_time p with
                 | Ret (None, _, Some m) => Some (p ++ ": " ++ m)%string
                 | _ => None
                 end) raw_parts.

(** The parsed pairs with a date out of the range. *)
Definition out_of_range (start_ end_ : date) (raw_parts : list string)
    : list (date * option time) :=
  filter (fun p => in_range start_ end_ p.1 = false) (parsed_pairs raw_parts).

(** Two pairs with the same date, one with a time and one without. *)
Definition conflictb (a b : date * option time) : bool :=
  bool_decide (a.1 = b.1)
  && xorb (bool_decide (a.2 = None)) (bool_decide (b.2 = None)).

(** The list holds two such pairs. *)
Fixpoint mixedb (l : list (date * option time)) : bool :=
  match l with
  | [] => false
  | x :: l' => existsb (conflictb x) l' || mixedb l'
  end.

(** Ascending by date. *)
Definition by_date : relation (date * option time) :=
  fun a b => date_le a.1 b.1.

(** The messages of the handler. *)
Definition msg_range : string :=
  "End date must be the same or after start date.".
Definition msg_no_dates : string :=
  "Please provide at least one monitored date.".
Definition msg_invalid (errors : list string) : string :=
  ("Some entries were invalid:" ++ nl ++ str_join nl errors)%string.
Definition msg_none_in_range : string :=
  "No valid monitored dates within the date range.".

(** The call that shows the results of a schedule. *)
Definition show_results (s : Schedule) : ui_call :=
  st_results (dry_time s) (monitoring_hours s) (after_hours s)
    (total_monitoring_hours s)
    ((fun e => (e, is_normal_window (d e) (t e))) <$> entries s).

(** What the handler shows for the pairs out of range: nothing when there
    is none, else the expander with these pairs in ascending order of
    date. *)
Definition shown_ignored (out : list (date * option time))
    (shown : list ui_call) : Prop :=
  (out = [] /\ shown = [])
  \/ (exists lines, out <> [] /\ shown = [st_ignored lines]
                    /\ lines ≡ₚ out /\ StronglySorted by_date lines).

(** * Properties *)

(** ** The order on dates and times *)

Ltac cmp_cases :=
  repeat match goal with
         | |- context [Z.compare ?x ?y] => destruct (Z.compare_spec x y)
         | H : context [Z.compare ?x ?y] |- _ => destruct (Z.compare_spec x y)
         end.

Section date_order.
Implicit Types a b c : date.

Lemma date_eqb_eq a b : date_eqb a b = true <-> a = b.
Proof.
  destruct a as [y1 m1 d1], b as [y2 m2 d2].
  unfold date_eqb, date_cmp; simpl. split.
  - cmp_cases; intros; try discriminate; congruence.
  - intros [= -> -> ->]. by rewrite !Z.compare_refl.
Qed.

Lemma date_eqb_refl a : date_eqb a a = true.
Proof. by apply date_eqb_eq. Qed.

Lemma date_eqb_neq a b : date_eqb a b = false <-> a <> b.
Proof.
  rewrite <- date_eqb_eq. destruct (date_eqb a b); split; congruence.
Qed.

Lemma date_ltb_spec a b :
  date_ltb a b = true <->
  year a < year b
  \/ (year a = year b
      /\ (month a < month b \/ (month a = month b /\ day a < day b))).
Proof.
  unfold date_ltb, date_cmp. cmp_cases; split; intros; try lia; done.
Qed.

Lemma date_leb_spec a b :
  date_leb a b = true <->
  year a < year b
  \/ (year a = year b
      /\ (month a < month b \/ (month a = month b /\ day a <= day b))).
Proof.
  unfold date_leb, date_cmp. cmp_cases; split; intros; try lia; done.
Qed.

(** [a >= b] is the negation of [a < b]. *)
Lemma date_leb_ltb a b : date_leb a b = negb (date_ltb b a).
Proof.
  apply eq_true_iff_eq. rewrite negb_true_iff, <- not_true_iff_false.
  rewrite date_leb_spec, date_ltb_spec. lia.
Qed.

Lemma date_ltb_leb_neq a b :
  date_ltb a b = true <-> date_leb a b = true /\ a <> b.
Proof.
  rewrite date_ltb_spec, date_leb_spec.
  destruct a as [y1 m1 d1], b as [y2 m2 d2]; simpl. split.
  - intros H. split; [lia|]. intros [= -> -> ->]. lia.
  - intros [H Hne].
    destruct (decide (d1 = d2)) as [->|]; [|lia].
    destruct (decide (m1 = m2)) as [->|]; [|lia].
    destruct (decide (y1 = y2)) as [->|]; [done|lia].
Qed.

Global Instance date_le_total : Total date_le.
Proof. intros a b. unfold date_le. rewrite !date_leb_spec. lia. Qed.

Global Instance date_le_trans : Transitive date_le.
Proof. intros a b c. unfold date_le. rewrite !date_leb_spec. lia. Qed.

Global Instance date_le_refl : Reflexive date_le.
Proof. intros a. unfold date_le. rewrite date_leb_spec. lia. Qed.

Global Instance date_le_antisym : AntiSymm (=) date_le.
Proof.
  intros [y1 m1 d1] [y2 m2 d2]. unfold date_le.
  rewrite !date_leb_spec; simpl. intros H1 H2.
  f_equal; lia.
Qed.

Global Instance date_lt_trans : Transitive date_lt.
Proof. intros a b c. unfold date_lt. rewrite !date_ltb_spec. lia. Qed.

Global Instance date_lt_irrefl : Irreflexive date_lt.
Proof. intros a. unfold complement, date_lt. rewrite date_ltb_spec. lia. Qed.

End date_order.

Section time_order.
Implicit Types a b : time.

Lemma time_ltb_spec a b :
  time_ltb a b = true <->
  hour a < hour b
  \/ (hour a = hour b
      /\ (minute a < minute b
          \/ (minute a = minute b
              /\ (second a < second b
                  \/ (second a = second b
                      /\ microsecond a < microsecond b))))).
Proof.
  unfold time_ltb, time_cmp. cmp_cases; split; intros; try lia; done.
Qed.

Lemma time_leb_spec a b :
  time_leb a b = true <->
  hour a < hour b
  \/ (hour a = hour b
      /\ (minute a < minute b
          \/ (minute a = minute b
              /\ (second a < second b
                  \/ (second a = second b
                      /\ microsecond a <= microsecond b))))).
Proof.
  unfold time_leb, time_cmp. cmp_cases; split; intros; try lia; done.
Qed.

Lemma time_ok_spec a :
  time_ok a = true <->
  0 <= hour a <= 23 /\ 0 <= minute a <= 59 /\ 0 <= second a <= 59
  /\ 0 <= microsecond a <= 999999.
Proof. unfold time_ok. rewrite !andb_true_iff, !Z.leb_le. lia. Qed.

(** For a time of day, lying in [08:00, 17:00) is a matter of the hour. *)
Lemma window_hours a :
  time_ok a = true ->
  time_leb WEEKDAY_START a && time_ltb a WEEKDAY_END = true
  <-> 8 <= hour a <= 16.
Proof.
  rewrite time_ok_spec, andb_true_iff, time_leb_spec, time_ltb_spec.
  unfold WEEKDAY_START, WEEKDAY_END, time_hm. simpl. lia.
Qed.

End time_order.

(** ** The calendar: ordinals grow with dates *)

Section calendar.

Lemma _days_before_year_succ y :
  _days_before_year (y + 1)
  = _days_before_year y + (if _is_leap y then 366 else 365).
Proof.
  unfold _days_before_year, _is_leap.
  replace (y + 1 - 1) with y by lia.
  destruct (Z.eqb_spec (y mod 4) 0), (Z.eqb_spec (y mod 100) 0),
    (Z.eqb_spec (y mod 400) 0); cbn [andb orb negb];
    Z.div_mod_to_equations; lia.
Qed.

Lemma _days_before_year_mono y y' :
  y <= y' -> _days_before_year y <= _days_before_year y'.
Proof. unfold _days_before_year. Z.div_mod_to_equations. lia. Qed.

Lemma month_cases m :
  1 <= m <= 12 ->
  m = 1 \/ m = 2 \/ m = 3 \/ m = 4 \/ m = 5 \/ m = 6 \/ m = 7 \/ m = 8
  \/ m = 9 \/ m = 10 \/ m = 11 \/ m = 12.
Proof. lia. Qed.

(** The days before a month and those of the month end where the next
    month starts, or where the year ends. *)
Lemma _days_before_month_next y m :
  1 <= m <= 12 ->
  _days_before_month y m + _days_in_month y m
  = if m =? 12 then (if _is_leap y then 366 else 365)
    else _days_before_month y (m + 1).
Proof.
  intros Hm. unfold _days_before_month, _days_in_month.
  destruct (month_cases m Hm) as
    [->|[->|[->|[->|[->|[->|[->|[->|[->|[->|[->| ->]]]]]]]]]]];
    destruct (_is_leap y); reflexivity.
Qed.

Lemma _days_before_month_mono y m m' :
  1 <= m -> m <= m' -> m' <= 12 ->
  _days_before_month y m <= _days_before_month y m'.
Proof.
  intros H1 H2 H3. unfold _days_before_month.
  destruct (month_cases m ltac:(lia)) as
    [->|[->|[->|[->|[->|[->|[->|[->|[->|[->|[->| ->]]]]]]]]]]];
    destruct (month_cases m' ltac:(lia)) as
    [->|[->|[->|[->|[->|[->|[->|[->|[->|[->|[->| ->]]]]]]]]]]];
    try lia; destruct (_is_leap y); simpl; lia.
Qed.

Lemma date_ok_spec dt :
  date_ok dt = true <->
  1 <= year dt <= 9999 /\ 1 <= month dt <= 12
  /\ 1 <= day dt <= _days_in_month (year dt) (month dt).
Proof.
  unfold date_ok, MINYEAR, MAXYEAR.
  rewrite !andb_true_iff, !Z.leb_le. lia.
Qed.

(** A valid date lies within its year. *)
Lemma toordinal_bounds dt :
  date_ok dt = true ->
  _days_before_year (year dt) < toordinal dt
  <= _days_before_year (year dt + 1).
Proof.
  rewrite date_ok_spec. intros (Hy & Hm & Hd).
  unfold toordinal, _ymd2ord. rewrite _days_before_year_succ.
  pose proof (_days_before_month_mono (year dt) 1 (month dt)
                ltac:(lia) ltac:(lia) ltac:(lia)) as H0.
  change (_days_before_month (year dt) 1) with 0 in H0.
  pose proof (_days_before_month_next (year dt) (month dt) Hm) as Hn.
  destruct (Z.eqb_spec (month dt) 12) as [E|E].
  - lia.
  - pose proof (_days_before_month_mono (year dt) (month dt + 1) 12
                  ltac:(lia) ltac:(lia) ltac:(lia)) as H12.
    unfold _days_before_month at 2 in H12. simpl in H12.
    destruct (_is_leap (year dt)); simpl in *; lia.
Qed.

Lemma toordinal_mono a b :
  date_ok a = true -> date_ok b = true ->
  date_leb a b = true -> toordinal a <= toordinal b.
Proof.
  intros Ha Hb. rewrite date_leb_spec.
  pose proof (toordinal_bounds a Ha) as Ba.
  pose proof (toordinal_bounds b Hb) as Bb.
  apply date_ok_spec in Ha as (Hya & Hma & Hda).
  apply date_ok_spec in Hb as (Hyb & Hmb & Hdb).
  intros [Hy|[Hy [Hm|[Hm Hd]]]].
  - pose proof (_days_before_year_mono (year a + 1) (year b) ltac:(lia)).
    lia.
  - unfold toordinal, _ymd2ord. rewrite Hy.
    pose proof (_days_before_month_next (year b) (month a) Hma) as Hn.
    destruct (Z.eqb_spec (month a) 12); [lia|].
    pose proof (_days_before_month_mono (year b) (month a + 1) (month b)
                  ltac:(lia) ltac:(lia) ltac:(lia)).
    rewrite Hy in Hda. lia.
  - unfold toordinal, _ymd2ord. rewrite Hy, Hm. lia.
Qed.

Lemma weekday_range dt : 0 <= weekday dt <= 6.
Proof. unfold weekday. pose proof (Z.mod_pos_bound (toordinal dt + 6) 7). lia. Qed.

End calendar.

(** ** [sorted] *)

Section sorted.
Implicit Types l : list date.

Lemma sorted_Sorted l : StronglySorted date_le (sorted l).
Proof. apply StronglySorted_merge_sort; apply _. Qed.

Lemma sorted_Permutation_self l : sorted l ≡ₚ l.
Proof. apply merge_sort_Permutation. Qed.

(** The result of [sorted] does not depend on the order of its argument. *)
Lemma sorted_Permutation l1 l2 : l1 ≡ₚ l2 -> sorted l1 = sorted l2.
Proof.
  intros Hp. apply (StronglySorted_unique date_le).
  - apply sorted_Sorted.
  - apply sorted_Sorted.
  - by rewrite !sorted_Permutation_self.
Qed.

Lemma StronglySorted_le_lt l :
  NoDup l -> StronglySorted date_le l -> StronglySorted date_lt l.
Proof.
  intros Hnd Hs. induction Hs as [|x l Hs IH Hall]; [constructor|].
  apply NoDup_cons in Hnd as [Hx Hnd]. constructor; [by apply IH|].
  apply Forall_forall. intros y Hy.
  apply date_ltb_leb_neq. split.
  - by eapply Forall_forall in Hall.
  - intros ->. done.
Qed.

Lemma StronglySorted_lt_NoDup l : StronglySorted date_lt l -> NoDup l.
Proof.
  induction 1 as [|x l Hs IH Hall]; [constructor|].
  apply NoDup_cons. split; [|done]. intros Hx.
  eapply Forall_forall in Hall; [|done].
  by apply (irreflexivity date_lt x).
Qed.

Lemma sorted_strict l : NoDup l -> StronglySorted date_lt (sorted l).
Proof.
  intros Hnd. apply StronglySorted_le_lt; [|apply sorted_Sorted].
  by rewrite sorted_Permutation_self.
Qed.

End sorted.

(** ** The dictionary [by_day] and the stored entries *)

Section construction.
Variables sd ed : date.
Implicit Types (l : list (date * option time)) (m : gmap date (option time)).

(** What [by_day] holds after the loop, started from [m]. *)
Lemma by_day_lookup l m dt :
  foldl (by_day_step sd ed) m l !! dt
  = match m !! dt with
    | Some v => Some v
    | None => if in_range sd ed dt then first_time dt l else None
    end.
Proof.
  revert m. induction l as [|[d' tm] l IH]; intros m; simpl.
  - destruct (m !! dt), (in_range sd ed dt); reflexivity.
  - rewrite IH. unfold by_day_step, in_range.
    destruct (decide (d' = dt)) as [->|Hne].
    + destruct (m !! dt) as [v|] eqn:Hm.
      * rewrite bool_decide_eq_false_2 by congruence.
        rewrite andb_false_r. by rewrite Hm.
      * rewrite bool_decide_eq_true_2 by done. rewrite andb_true_r.
        destruct (date_leb sd dt && date_leb dt ed) eqn:Hr.
        -- by rewrite lookup_insert_eq.
        -- by rewrite Hm.
    + destruct (date_leb sd d' && date_leb d' ed
                && bool_decide (m !! d' = None)); [|done].
      by rewrite lookup_insert_ne.
Qed.

Lemma elem_of_keys m dt : dt ∈ keys m <-> is_Some (m !! dt).
Proof.
  unfold keys. rewrite list_elem_of_fmap. split.
  - intros ([k v] & -> & Hin). apply elem_of_map_to_list in Hin. eauto.
  - intros [v Hv]. exists (dt, v). split; [done|].
    by apply elem_of_map_to_list.
Qed.

Lemma NoDup_keys m : NoDup (keys m).
Proof. apply NoDup_fst_map_to_list. Qed.

Lemma by_day_get_Some m dt tm : m !! dt = Some tm -> by_day_get m dt = Ret tm.
Proof. unfold by_day_get. by intros ->. Qed.

(** The comprehension that builds [self.entries] never raises. *)
Lemma entries_mapM m (ks : list date) :
  (forall dt, dt ∈ ks -> is_Some (m !! dt)) ->
  exists es,
    mapM (fun dt => tm ← by_day_get m dt; Ret (mk_Entry dt tm)) ks = Ret es
    /\ d <$> es = ks
    /\ forall e, e ∈ es -> m !! d e = Some (t e).
Proof.
  induction ks as [|k ks IH]; intros Hks.
  - exists []. split; [done|]. split; [done|]. intros e He. inversion He.
  - destruct IH as (es & Hes & Hd & Ht).
    { intros dt Hdt. apply Hks. by right. }
    destruct (Hks k) as [tm Htm]; [by left|].
    exists (mk_Entry k tm :: es). split; [|split].
    + simpl. rewrite (by_day_get_Some m k tm Htm). simpl. by rewrite Hes.
    + rewrite fmap_cons. by rewrite Hd.
    + intros e He. apply elem_of_cons in He as [->|He]; [done|by apply Ht].
Qed.

(** The shape of every constructed schedule. *)
Lemma Schedule_init_inv l s :
  Schedule_init sd ed l = Ret s ->
  let m := foldl (by_day_step sd ed) ∅ l in
  date_ltb ed sd = false
  /\ start_date s = sd /\ end_date s = ed
  /\ d <$> entries s = sorted (keys m)
  /\ forall e, e ∈ entries s -> m !! d e = Some (t e).
Proof.
  intros H m. unfold Schedule_init in H.
  destruct (date_ltb ed sd); [discriminate|].
  destruct (entries_mapM m (sorted (keys m))) as (es & Hes & Hd & Ht).
  { intros dt Hdt. apply elem_of_keys.
    by rewrite sorted_Permutation_self in Hdt. }
  fold m in H. rewrite Hes in H. cbn in H. injection H as <-.
  by simpl.
Qed.

(** Construction succeeds whenever the range test passes. *)
Lemma Schedule_init_Ret l :
  date_ltb ed sd = false -> exists s, Schedule_init sd ed l = Ret s.
Proof.
  intros Hlt. unfold Schedule_init. rewrite Hlt.
  set (m := foldl (by_day_step sd ed) ∅ l).
  destruct (entries_mapM m (sorted (keys m))) as (es & Hes & _).
  { intros dt Hdt. apply elem_of_keys.
    by rewrite sorted_Permutation_self in Hdt. }
  rewrite Hes. by eexists.
Qed.

Lemma by_day_lookup_empty l dt :
  foldl (by_day_step sd ed) ∅ l !! dt
  = if in_range sd ed dt then first_time dt l else None.
Proof. by rewrite by_day_lookup, lookup_empty. Qed.

Lemma first_time_app l1 l2 dt tm :
  Forall (fun p => p.1 <> dt) l1 ->
  first_time dt (l1 ++ (dt, tm) :: l2) = Some tm.
Proof.
  induction 1 as [|p l1 Hp _ IH]; simpl.
  - by rewrite decide_True.
  - by rewrite decide_False.
Qed.

Lemma first_time_elem_of l dt tm : first_time dt l = Some tm -> (dt, tm) ∈ l.
Proof.
  induction l as [|[d' tm'] l IH]; simpl; [done|].
  destruct (decide (d' = dt)) as [->|].
  - intros [= ->]. by left.
  - intros H. right. by apply IH.
Qed.

(** Dropping the pairs out of range first does not change the lookup of a
    date in range. *)
Lemma first_time_filter l dt :
  in_range sd ed dt = true ->
  first_time dt (filter (fun p => in_range sd ed p.1 = true) l)
  = first_time dt l.
Proof.
  intros Hr. induction l as [|[d' tm'] l IH]; [done|].
  rewrite filter_cons. simpl.
  destruct (decide (d' = dt)) as [->|Hne].
  - rewrite decide_True by done. simpl. by rewrite decide_True.
  - case_decide; simpl; [by rewrite decide_False|done].
Qed.

Lemma by_day_filter l :
  foldl (by_day_step sd ed) ∅
        (filter (fun p => in_range sd ed p.1 = true) l)
  = foldl (by_day_step sd ed) ∅ l.
Proof.
  apply map_eq. intros dt. rewrite !by_day_lookup_empty.
  destruct (in_range sd ed dt) eqn:Hr; [|done].
  by apply first_time_filter.
Qed.

(** A stored entry has a date in range and the time of the first pair of
    the input with that date. *)
Lemma stored_entry_origin l s e :
  Schedule_init sd ed l = Ret s -> e ∈ entries s ->
  in_range sd ed (d e) = true /\ first_time (d e) l = Some (t e).
Proof.
  intros Hs He. apply Schedule_init_inv in Hs as (_ & _ & _ & _ & Ht).
  specialize (Ht e He). rewrite by_day_lookup_empty in Ht.
  by destruct (in_range sd ed (d e)).
Qed.

(** The dates of the stored entries are the dates of the input in range. *)
Lemma stored_dates l s dt :
  Schedule_init sd ed l = Ret s ->
  dt ∈ d <$> entries s
  <-> in_range sd ed dt = true /\ is_Some (first_time dt l).
Proof.
  intros Hs. apply Schedule_init_inv in Hs as (_ & _ & _ & Hd & _).
  rewrite Hd, sorted_Permutation_self, elem_of_keys, by_day_lookup_empty.
  destruct (in_range sd ed dt).
  - split; [by intros ?|by intros [_ ?]].
  - split; [by intros [? ?]|by intros [? _]].
Qed.

Lemma stored_dates_inj l s i j e1 e2 :
  Schedule_init sd ed l = Ret s ->
  entries s !! i = Some e1 -> entries s !! j = Some e2 ->
  d e1 = d e2 -> i = j.
Proof.
  intros Hs Hi Hj Hd.
  apply Schedule_init_inv in Hs as (_ & _ & _ & Hk & _).
  apply (NoDup_lookup (d <$> entries s) i j (d e1)).
  - rewrite Hk, sorted_Permutation_self. apply NoDup_keys.
  - by rewrite list_lookup_fmap, Hi.
  - by rewrite list_lookup_fmap, Hj, Hd.
Qed.

Lemma stored_dates_strict l s :
  Schedule_init sd ed l = Ret s -> StronglySorted date_lt (d <$> entries s).
Proof.
  intros Hs. apply Schedule_init_inv in Hs as (_ & _ & _ & Hd & _).
  rewrite Hd. apply sorted_strict, NoDup_keys.
Qed.

End construction.

(** ** The loop of [_split_hours] *)

Section hours.
Implicit Types (s : Schedule) (e : Entry) (w : list Z).

Lemma sumZ_cons x w : sumZ (x :: w) = x + sumZ w.
Proof. reflexivity. Qed.

Lemma sumZ_app w1 w2 : sumZ (w1 ++ w2) = sumZ w1 + sumZ w2.
Proof. induction w1 as [|x w1 IH]; simpl; [done|]. rewrite IH. lia. Qed.

Lemma sumZ_nonneg w : Forall (fun x => 0 <= x) w -> 0 <= sumZ w.
Proof. induction 1; simpl; lia. Qed.

Lemma sumZ_all_2 w : Forall (fun x => x = 2) w -> sumZ w = 2 * Z.of_nat (length w).
Proof. induction 1 as [|x w -> _ IH]; simpl; [done|]. rewrite IH. lia. Qed.

Lemma base_hours_cases a b : base_hours a b = 4 \/ base_hours a b = 2.
Proof. unfold base_hours. destruct (a || b); auto. Qed.

Lemma entry_hrs_nonneg s e : 0 <= entry_hrs s e.
Proof.
  unfold entry_hrs. destruct (entries s) as [|e0 es]; [done|].
  match goal with |- _ <= base_hours ?a ?b =>
    destruct (base_hours_cases a b) as [-> | ->] end; done.
Qed.

(** The loop adds the weight of each entry to one of the two sums. *)
Lemma split_fold fd ld es n a :
  foldl (split_step fd ld) (n, a) es
  = (n + sumZ ((fun e => base_hours (date_eqb (d e) fd) (date_eqb (d e) ld))
               <$> filter (fun e => is_normal_window (d e) (t e) = true) es),
     a + sumZ ((fun e => base_hours (date_eqb (d e) fd) (date_eqb (d e) ld))
               <$> filter (fun e => is_normal_window (d e) (t e) = false) es)).
Proof.
  revert n a. induction es as [|e es IH]; intros n a; simpl.
  - f_equal; lia.
  - rewrite !filter_cons.
    destruct (is_normal_window (d e) (t e)) eqn:Hw; rewrite IH.
    + rewrite decide_True by done. rewrite decide_False by done.
      rewrite fmap_cons, sumZ_cons. f_equal; lia.
    + rewrite decide_False by done. rewrite decide_True by done.
      rewrite fmap_cons, sumZ_cons. f_equal; lia.
Qed.

Lemma _split_hours_sums s :
  _split_hours s
  = (sumZ (entry_hrs s <$> normal_entries s),
     sumZ (entry_hrs s <$> after_entries s)).
Proof.
  unfold _split_hours, normal_entries, after_entries, entry_hrs.
  destruct (entries s) as [|e0 es] eqn:He; [done|].
  by rewrite split_fold.
Qed.

(** The two classes partition the stored entries. *)
Lemma sumZ_partition (f : Entry -> Z) (P : Entry -> bool) es :
  sumZ (f <$> filter (fun e => P e = true) es)
  + sumZ (f <$> filter (fun e => P e = false) es)
  = sumZ (f <$> es).
Proof.
  induction es as [|e es IH]; [done|].
  rewrite !filter_cons. destruct (P e) eqn:HP.
  - rewrite decide_True by done. rewrite decide_False by done.
    rewrite !fmap_cons, !sumZ_cons. lia.
  - rewrite decide_False by done. rewrite decide_True by done.
    rewrite !fmap_cons, !sumZ_cons. lia.
Qed.

Lemma total_is_sum s : total_monitoring_hours s = sumZ (weights s).
Proof.
  unfold total_monitoring_hours, weights. rewrite _split_hours_sums.
  apply (sumZ_partition (entry_hrs s)
           (fun e => is_normal_window (d e) (t e))).
Qed.

Lemma List_last_lookup {A} (l : list A) (x0 : A) :
  l <> [] -> l !! (length l - 1)%nat = Some (List.last l x0).
Proof.
  induction l as [|x l IH]; [done|]. intros _.
  destruct l as [|y l]; [done|].
  replace (length (x :: y :: l) - 1)%nat with (S (length (y :: l) - 1))
    by (simpl; lia).
  rewrite lookup_cons. by apply IH.
Qed.

(** A list that holds 4 at its two ends and 2 elsewhere. *)
Lemma sumZ_first_last w :
  (forall i x, w !! i = Some x ->
     x = if (i =? 0)%nat || (i =? length w - 1)%nat then 4 else 2) ->
  sumZ w = match length w with
           | O => 0
           | S O => 4
           | n => 2 * Z.of_nat n + 4
           end.
Proof.
  intros Hw. destruct w as [|x w]; [done|].
  pose proof (Hw O x eq_refl) as Hx. simpl in Hx. subst x.
  destruct w as [|y w _] using rev_ind; [done|].
  assert (Hy : y = 4).
  { rewrite (Hw (S (length w)) y).
    - rewrite length_cons, length_app. cbn [length].
      destruct (Nat.eqb_spec (S (length w)) 0),
        (Nat.eqb_spec (S (length w)) (S (length w + 1) - 1));
        cbn [orb]; done || lia.
    - rewrite lookup_cons. by apply list_lookup_middle. }
  subst y.
  assert (Hmid : Forall (fun x => x = 2) w).
  { apply Forall_lookup. intros i x Hi.
    rewrite (Hw (S i) x).
    - rewrite length_cons, length_app. cbn [length].
      apply lookup_lt_Some in Hi.
      destruct (Nat.eqb_spec (S i) 0),
        (Nat.eqb_spec (S i) (S (length w + 1) - 1));
        cbn [orb]; done || lia.
    - rewrite lookup_cons. by apply lookup_app_l_Some. }
  rewrite sumZ_cons, sumZ_app, (sumZ_all_2 w Hmid), length_cons, length_app.
  cbn [length sumZ foldr]. destruct (length w + 1)%nat eqn:E; lia.
Qed.

End hours.

(** ** Weights in a constructed schedule *)

Section stored_weights.
Variables (sd ed : date) (l : list (date * option time)) (s : Schedule).
Hypothesis Hs : Schedule_init sd ed l = Ret s.

(** The weight is decided by the position alone: the dates of the stored
    entries are pairwise distinct, so comparing the date of an entry with
    the first and the last date compares its position with the two ends. *)
Lemma entry_hrs_index i e :
  entries s !! i = Some e ->
  entry_hrs s e
  = if (i =? 0)%nat || (i =? length (entries s) - 1)%nat then 4 else 2.
Proof.
  intros Hi. unfold entry_hrs.
  pose proof (stored_dates_inj sd ed l s) as Hinj.
  destruct (entries s) as [|e0 es] eqn:He; [done|].
  set (el := List.last (e0 :: es) e0).
  assert (H0 : (e0 :: es) !! O = Some e0) by done.
  assert (Hl : (e0 :: es) !! (length (e0 :: es) - 1)%nat = Some el)
    by by apply List_last_lookup.
  assert (Hfirst : date_eqb (d e) (d e0) = (i =? 0)%nat).
  { apply eq_true_iff_eq. rewrite date_eqb_eq, Nat.eqb_eq. split.
    - intros Hd. by apply (Hinj i O e e0 Hs).
    - intros ->. rewrite H0 in Hi. by injection Hi as ->. }
  assert (Hlast : date_eqb (d e) (d el)
                  = (i =? length (e0 :: es) - 1)%nat).
  { apply eq_true_iff_eq. rewrite date_eqb_eq, Nat.eqb_eq. split.
    - intros Hd. by apply (Hinj i _ e el Hs).
    - intros ->. rewrite Hl in Hi. by injection Hi as ->. }
  by rewrite Hfirst, Hlast.
Qed.

Lemma weights_index i x :
  weights s !! i = Some x ->
  x = if (i =? 0)%nat || (i =? length (weights s) - 1)%nat then 4 else 2.
Proof.
  unfold weights. rewrite list_lookup_fmap, length_fmap.
  destruct (entries s !! i) as [e|] eqn:Hi; [|done].
  intros [= <-]. by apply entry_hrs_index.
Qed.

End stored_weights.

(** ** Strings and the parser *)

Section strings.
Implicit Types (s r : string) (c : ascii).

Lemma is_empty_true s : is_empty s = true <-> s = EmptyString.
Proof. by destruct s. Qed.

Lemma lstrip_empty s : lstrip s = EmptyString <-> whitespace_only s = true.
Proof.
  induction s as [|c s IH]; simpl; [done|].
  destruct (is_space c); simpl; [done|]. split; discriminate.
Qed.

(** What [lstrip] leaves starts with a character that is not a space. *)
Lemma lstrip_head s c r : lstrip s = String c r -> is_space c = false.
Proof.
  induction s as [|c' s IH]; simpl; [done|].
  destruct (is_space c') eqn:Hc; [done|]. by intros [= <- _].
Qed.

Lemma rstrip_head c r :
  is_space c = false -> rstrip (String c r) = String c (rstrip r).
Proof. intros Hc. simpl. by rewrite Hc. Qed.

Lemma strip_empty s : strip s = EmptyString <-> whitespace_only s = true.
Proof.
  unfold strip. rewrite <- lstrip_empty.
  destruct (lstrip s) as [|c r] eqn:Hl; [done|].
  rewrite (rstrip_head c r (lstrip_head s c r Hl)). split; discriminate.
Qed.

Lemma strip_head s c r : strip s = String c r -> is_space c = false.
Proof.
  unfold strip. destruct (lstrip s) as [|c' r'] eqn:Hl; [done|].
  pose proof (lstrip_head s c' r' Hl) as Hc.
  rewrite (rstrip_head c' r' Hc). by intros [= <- _].
Qed.

(** A text that starts with a character that is not a space has a first
    part. *)
Lemma split_head c r : is_space c = false -> split (String c r) <> [].
Proof.
  intros Hc. simpl. rewrite Hc.
  destruct r as [|c' r']; [done|].
  destruct (is_space c'); [done|]. by destruct (split (String c' r')).
Qed.

Lemma full_match_raises {A} (p : pattern A) s e :
  full_match p s = Raise e -> exists msg, e = ValueError msg.
Proof.
  unfold full_match. destruct (head (p s)) as [[v rest]|].
  - destruct (is_empty rest); [done|]. intros [= <-]. eauto.
  - intros [= <-]. eauto.
Qed.

(** [strptime] returns a date that the [date] type admits, or raises
    [ValueError]. *)
Lemma strptime_date_cases s :
  (exists dt, strptime_date s = Ret dt /\ date_ok dt = true)
  \/ (exists msg, strptime_date s = Raise (ValueError msg)).
Proof.
  unfold strptime_date.
  destruct (full_match re_mdY s) as [v|e] eqn:Hm; simpl.
  - destruct (date_ok _) eqn:Hok; eauto.
  - destruct (full_match_raises _ _ _ Hm) as [msg ->]. eauto.
Qed.

Lemma strptime_time_cases s :
  (exists tm, strptime_time s = Ret tm /\ time_ok tm = true)
  \/ (exists msg, strptime_time s = Raise (ValueError msg)).
Proof.
  unfold strptime_time.
  destruct (full_match re_HM s) as [v|e] eqn:Hm; simpl.
  - destruct (time_ok _) eqn:Hok; eauto.
  - destruct (full_match_raises _ _ _ Hm) as [msg ->]. eauto.
Qed.

(** The outcomes of [parse_date_time], by the parts of the stripped
    token. *)
Lemma parse_date_time_cases entry_str :
  (strip entry_str = EmptyString
   /\ parse_date_time entry_str = Ret (None, None, Some msg_empty))
  \/ (exists p0 rest,
        split (strip entry_str) = p0 :: rest
        /\ ((exists msg, strptime_date p0 = Raise (ValueError msg)
             /\ parse_date_time entry_str
                = Ret (None, None, Some (msg_invalid_date p0)))
            \/ (exists dt, strptime_date p0 = Ret dt /\ date_ok dt = true
                /\ match rest with
                   | [] => parse_date_time entry_str
                           = Ret (Some dt, None, None)
                   | [p1] =>
                       (exists msg,
                          strptime_time p1 = Raise (ValueError msg)
                          /\ parse_date_time entry_str
                             = Ret (None, None, Some (msg_invalid_time p1)))
                       \/ (exists tm,
                             strptime_time p1 = Ret tm /\ time_ok tm = true
                             /\ parse_date_time entry_str
                                = Ret (Some dt, Some tm, None))
                   | _ => parse_date_time entry_str
                          = Ret (None, None,
                                 Some (msg_bad_entry (strip entry_str)))
                   end))).
Proof.
  unfold parse_date_time.
  destruct (strip entry_str) as [|c r] eqn:Hs; [by left|].
  right. simpl is_empty. cbv iota.
  pose proof (split_head c r (strip_head _ _ _ Hs)) as Hne.
  destruct (split (String c r)) as [|p0 rest]; [done|].
  exists p0, rest. split; [done|].
  unfold index at 1. simpl lookup. simpl mbind.
  destruct (strptime_date_cases p0) as [(dt & -> & Hok)|(msg & ->)].
  - right. exists dt. split; [done|]. split; [done|].
    destruct rest as [|p1 [|p2 rest]]; [done| |done].
    simpl. destruct (strptime_time_cases p1) as [(tm & -> & Htm)|(msg & ->)].
    + right. eauto.
    + left. eauto.
  - left. eauto.
Qed.

End strings.

(** ** The models on sample inputs *)

Example weekday_2025_09_18 : weekday (mk_date 2025 9 18) = 3.
Proof. reflexivity. Qed.

Example weekday_2025_09_20 : weekday (mk_date 2025 9 20) = 5.
Proof. reflexivity. Qed.

Example toordinal_2025_09_20 : toordinal (mk_date 2025 9 20) = 739514.
Proof. reflexivity. Qed.

Example split_sample :
  split (strip "  09/18/2025   0700 ") = ["09/18/2025"; "0700"]%string.
Proof. reflexivity. Qed.

Example strptime_time_0700 : strptime_time "0700" = Ret (time_hm 7 0).
Proof. reflexivity. Qed.

(** Backtracking: [%H] gives up its second digit so that [%M] can match. *)
Example strptime_time_18 : strptime_time "18" = Ret (time_hm 1 8).
Proof. reflexivity. Qed.

Example strptime_time_2400 :
  strptime_time "2400" = Raise (ValueError "unconverted data remains").
Proof. reflexivity. Qed.

Example strptime_date_leap :
  strptime_date "02/29/2024" = Ret (mk_date 2024 2 29)
  /\ strptime_date "02/29/2025"
     = Raise (ValueError "date value out of range").
Proof. split; reflexivity. Qed.

(** The tokens of the example of the specification give [ex_entries]. *)
Example parse_spec_tokens :
  parse_date_time <$> ["09/18/2025 0700"; "09/19/2025 1800"; "09/20/2025"]%string
  = (fun p => Ret (Some p.1, p.2, None)) <$> ex_entries.
Proof. vm_compute. reflexivity. Qed.

Example parse_invalid_date :
  parse_date_time "13/40/2025"
  = Ret (None, None, Some (msg_invalid_date "13/40/2025")).
Proof. reflexivity. Qed.

(** Two pairs for one date: the first one is kept. *)
Example duplicate_date :
  Schedule_init ex_start ex_end
    [ (mk_date 2025 9 18, Some (time_hm 7 0));
      (mk_date 2025 9 18, Some (time_hm 18 0)) ]
  = Ret (mk_Schedule ex_start ex_end
           [mk_Entry (mk_date 2025 9 18) (Some (time_hm 7 0))]).
Proof. vm_compute. reflexivity. Qed.

Example unordered_input :
  Schedule_init ex_start ex_end ex_unordered = Ret ex_schedule.
Proof. vm_compute. reflexivity. Qed.

(** ** Classification *)

(** C2.  Classification of an entry.  [weekday] is 5 on a Saturday and 6 on a
    Sunday: such an entry is after-hours whatever its time.  On a weekday an
    entry without a time is normal, and an entry with the time [x] is normal
    exactly when [08:00 <= x < 17:00], which for a time of day means an hour
    from 8 to 16; so 08:00 is normal, 17:00 and 07:59 are after-hours. *)
Theorem classification (dt : date) (tm : option time) :
  0 <= weekday dt <= 6
  /\ (weekday dt = 5 \/ weekday dt = 6 -> is_normal_window dt tm = false)
  /\ (weekday dt < 5 -> is_normal_window dt None = true)
  /\ (weekday dt < 5 -> forall x,
        is_normal_window dt (Some x) = true
        <-> time_leb (time_hm 8 0) x = true /\ time_ltb x (time_hm 17 0) = true)
  /\ (weekday dt < 5 -> forall x, time_ok x = true ->
        (is_normal_window dt (Some x) = true <-> 8 <= hour x <= 16))
  /\ (weekday dt < 5 ->
        is_normal_window dt (Some (time_hm 8 0)) = true
        /\ is_normal_window dt (Some (time_hm 17 0)) = false
        /\ is_normal_window dt (Some (time_hm 7 59)) = false).
Proof.
  split; [apply weekday_range|].
  unfold is_normal_window, is_weekday.
  split; [|split; [|split; [|split]]].
  - intros H. destruct (Z.ltb_spec (weekday dt) 5); [lia|done].
  - intros H. destruct (Z.ltb_spec (weekday dt) 5); [done|lia].
  - intros H x. destruct (Z.ltb_spec (weekday dt) 5); [|lia].
    simpl. by rewrite andb_true_iff.
  - intros H x Hx. destruct (Z.ltb_spec (weekday dt) 5); [|lia].
    simpl. by apply window_hours.
  - intros H. destruct (Z.ltb_spec (weekday dt) 5); [|lia]. done.
Qed.

(** ** Construction of a schedule *)

(** C5.  Construction fails exactly when [end_date < start_date], and then
    with the range error; whenever [start_date <= end_date] it succeeds,
    whatever the list of pairs, and keeps the two boundary dates. *)
Theorem construction_fails_iff_range_error
    (sd ed : date) (l : list (date * option time)) :
  ((exists e, Schedule_init sd ed l = Raise e) <-> date_ltb ed sd = true)
  /\ (date_ltb ed sd = true ->
      Schedule_init sd ed l
      = Raise (ValueError "end_date must be >= start_date"))
  /\ (date_leb sd ed = true ->
      exists s, Schedule_init sd ed l = Ret s
                /\ start_date s = sd /\ end_date s = ed).
Proof.
  assert (Hfail : date_ltb ed sd = true ->
                  Schedule_init sd ed l
                  = Raise (ValueError "end_date must be >= start_date")).
  { intros H. unfold Schedule_init. by rewrite H. }
  split; [|split; [done|]].
  - split.
    + intros [e He]. destruct (date_ltb ed sd) eqn:Hlt; [done|].
      destruct (Schedule_init_Ret sd ed l Hlt) as [s Hs]. congruence.
    + intros H. eexists. by apply Hfail.
  - rewrite date_leb_ltb, negb_true_iff. intros Hlt.
    destruct (Schedule_init_Ret sd ed l Hlt) as [s Hs].
    exists s. split; [done|].
    by apply Schedule_init_inv in Hs as (_ & ? & ? & _).
Qed.

(** C6.  First write wins: when the pair [(dt, tm)] is the first pair of the
    input with the in-range date [dt], the constructed schedule stores the
    entry [(dt, tm)], and every stored entry with the date [dt] is that one,
    whatever pairs with the same date follow it in the input. *)
Theorem first_write_wins
    (sd ed : date) (l1 l2 : list (date * option time))
    (dt : date) (tm : option time) (s : Schedule) :
  in_range sd ed dt = true ->
  Forall (fun p => p.1 <> dt) l1 ->
  Schedule_init sd ed (l1 ++ (dt, tm) :: l2) = Ret s ->
  mk_Entry dt tm ∈ entries s
  /\ forall e, e ∈ entries s -> d e = dt -> e = mk_Entry dt tm.
Proof.
  intros Hr Hl1 Hs.
  pose proof (first_time_app l1 l2 dt tm Hl1) as Hft.
  assert (Hone : forall e, e ∈ entries s -> d e = dt -> e = mk_Entry dt tm).
  { intros [d' t'] He Hd. simpl in Hd. subst d'.
    destruct (stored_entry_origin sd ed _ s _ Hs He) as [_ Ht].
    simpl in Ht. rewrite Hft in Ht. by injection Ht as ->. }
  split; [|done].
  assert (Hin : dt ∈ d <$> entries s).
  { apply (stored_dates sd ed _ s dt Hs). rewrite Hft. eauto. }
  apply list_elem_of_fmap in Hin as (e & Hd & He).
  by rewrite <- (Hone e He (eq_sym Hd)).
Qed.

Lemma first_write_wins_witness :
  in_range ex_start ex_end (mk_date 2025 9 18) = true
  /\ Forall (fun p : date * option time => p.1 <> mk_date 2025 9 18)
            [(mk_date 2025 9 19, Some (time_hm 18 0))]
  /\ Schedule_init ex_start ex_end ex_unordered = Ret ex_schedule
  /\ mk_Entry (mk_date 2025 9 18) (Some (time_hm 7 0)) ∈ entries ex_schedule
  /\ (forall e, e ∈ entries ex_schedule -> d e = mk_date 2025 9 18 ->
        e = mk_Entry (mk_date 2025 9 18) (Some (time_hm 7 0))).
Proof.
  assert (H1 : in_range ex_start ex_end (mk_date 2025 9 18) = true)
    by reflexivity.
  assert (H2 : Forall (fun p : date * option time => p.1 <> mk_date 2025 9 18)
                 [(mk_date 2025 9 19, Some (time_hm 18 0))])
    by (repeat constructor; simpl; discriminate).
  assert (H3 : Schedule_init ex_start ex_end ex_unordered = Ret ex_schedule)
    by (vm_compute; reflexivity).
  split; [exact H1|]. split; [exact H2|]. split; [exact H3|].
  exact (first_write_wins ex_start ex_end
           [(mk_date 2025 9 19, Some (time_hm 18 0))]
           [(mk_date 2025 9 21, None);
            (mk_date 2025 9 18, Some (time_hm 18 0));
            (mk_date 2025 9 20, None)]
           (mk_date 2025 9 18) (Some (time_hm 7 0)) ex_schedule H1 H2 H3).
Defined.

(** C7.  The stored entries of a constructed schedule are strictly ascending
    by date, hold at most one entry per date, and all lie within
    [start_date, end_date]; each one is a pair of the input.  A pair of the
    input whose date is out of range is not stored, and dropping all such
    pairs from the input beforehand yields the same schedule, hence the same
    hour totals. *)
Theorem stored_entries_invariant
    (sd ed : date) (l : list (date * option time)) (s : Schedule) :
  Schedule_init sd ed l = Ret s ->
  StronglySorted date_lt (d <$> entries s)
  /\ (forall i j e1 e2,
        entries s !! i = Some e1 -> entries s !! j = Some e2 ->
        d e1 = d e2 -> i = j)
  /\ (forall e, e ∈ entries s ->
        date_leb (start_date s) (d e) = true
        /\ date_leb (d e) (end_date s) = true
        /\ (d e, t e) ∈ l)
  /\ (forall p, p ∈ l -> in_range sd ed p.1 = false ->
        p.1 ∉ d <$> entries s)
  /\ Schedule_init sd ed (filter (fun p => in_range sd ed p.1 = true) l)
     = Ret s.
Proof.
  intros Hs.
  pose proof (stored_dates_strict sd ed l s Hs) as Hsorted.
  split; [done|]. split; [|split; [|split]].
  - intros i j e1 e2. by apply (stored_dates_inj sd ed l).
  - intros e He.
    destruct (stored_entry_origin sd ed l s e Hs He) as [Hr Ht].
    apply Schedule_init_inv in Hs as (_ & -> & -> & _).
    unfold in_range in Hr. apply andb_true_iff in Hr as [? ?].
    split; [done|]. split; [done|]. by apply first_time_elem_of.
  - intros p Hp Hr Hin.
    apply (stored_dates sd ed l s _ Hs) in Hin as [Hr' _]. congruence.
  - revert Hs. unfold Schedule_init. by rewrite by_day_filter.
Qed.

Lemma stored_entries_invariant_witness :
  Schedule_init ex_start ex_end ex_unordered = Ret ex_schedule
  /\ StronglySorted date_lt (d <$> entries ex_schedule)
  /\ (forall p, p ∈ ex_unordered -> in_range ex_start ex_end p.1 = false ->
        p.1 ∉ d <$> entries ex_schedule)
  /\ Schedule_init ex_start ex_end
       (filter (fun p => in_range ex_start ex_end p.1 = true) ex_unordered)
     = Ret ex_schedule.
Proof.
  assert (H : Schedule_init ex_start ex_end ex_unordered = Ret ex_schedule)
    by (vm_compute; reflexivity).
  destruct (stored_entries_invariant ex_start ex_end ex_unordered
              ex_schedule H) as (Hsorted & _ & _ & Hout & Hfilter).
  split; [exact H|]. split; [exact Hsorted|]. split; [exact Hout|].
  exact Hfilter.
Defined.

(** ** Hour totals *)

(** C3.  In a constructed schedule the entry stored at position [i] has the
    base weight 4 when it is the first or the last stored entry and 2
    otherwise; a schedule with exactly one stored entry has the single
    weight 4 and the total 4 (not 8).  The two sums of [_split_hours] are the
    sums of these weights over the entries of each class. *)
Theorem base_weight_by_position
    (sd ed : date) (l : list (date * option time)) (s : Schedule) :
  Schedule_init sd ed l = Ret s ->
  (forall i e, entries s !! i = Some e ->
     entry_hrs s e
     = if (i =? 0)%nat || (i =? length (entries s) - 1)%nat then 4 else 2)
  /\ (length (entries s) = 1%nat ->
      weights s = [4] /\ total_monitoring_hours s = 4)
  /\ monitoring_hours s = sumZ (entry_hrs s <$> normal_entries s)
  /\ after_hours s = sumZ (entry_hrs s <$> after_entries s).
Proof.
  intros Hs. split; [|split; [|split]].
  - intros i e. by apply (entry_hrs_index sd ed l).
  - intros Hlen.
    assert (Hw : weights s = [4]).
    { unfold weights. destruct (entries s) as [|e0 [|e1 es]] eqn:He;
        try discriminate.
      rewrite <- He at 1. rewrite He. simpl. f_equal.
      apply (entry_hrs_index sd ed l s Hs O). by rewrite He. }
    split; [done|]. by rewrite total_is_sum, Hw.
  - unfold monitoring_hours. by rewrite _split_hours_sums.
  - unfold after_hours. by rewrite _split_hours_sums.
Qed.

Lemma base_weight_by_position_witness :
  Schedule_init ex_start ex_end ex_unordered = Ret ex_schedule
  /\ (forall i e, entries ex_schedule !! i = Some e ->
        entry_hrs ex_schedule e
        = if (i =? 0)%nat || (i =? length (entries ex_schedule) - 1)%nat
          then 4 else 2)
  /\ monitoring_hours ex_schedule
     = sumZ (entry_hrs ex_schedule <$> normal_entries ex_schedule).
Proof.
  assert (H : Schedule_init ex_start ex_end ex_unordered = Ret ex_schedule)
    by (vm_compute; reflexivity).
  destruct (base_weight_by_position ex_start ex_end ex_unordered
              ex_schedule H) as (Hw & _ & Hn & _).
  split; [exact H|]. split; [exact Hw|]. exact Hn.
Defined.

(** C8.  In a constructed schedule [dry_time] is the difference in days
    [end_date - start_date] floored at 0, hence not negative; for two dates
    that the [date] type admits the floor is never reached and [dry_time]
    is the difference itself.  With no stored entry the three hour totals
    are 0. *)
Theorem dry_time_and_empty_totals
    (sd ed : date) (l : list (date * option time)) (s : Schedule) :
  Schedule_init sd ed l = Ret s ->
  dry_time s = Z.max (days (date_sub ed sd)) 0
  /\ 0 <= dry_time s
  /\ (date_ok sd = true -> date_ok ed = true ->
      dry_time s = days (date_sub ed sd))
  /\ (entries s = [] ->
      monitoring_hours s = 0 /\ after_hours s = 0
      /\ total_monitoring_hours s = 0
      /\ dry_time s = Z.max (days (date_sub ed sd)) 0).
Proof.
  intros Hs.
  destruct (Schedule_init_inv sd ed l s Hs) as (Hlt & Hsd & Hed & _).
  unfold dry_time. rewrite Hsd, Hed.
  split; [done|]. split; [lia|]. split.
  - intros Hok1 Hok2. simpl.
    assert (date_leb sd ed = true) as Hle by by rewrite date_leb_ltb, Hlt.
    pose proof (toordinal_mono sd ed Hok1 Hok2 Hle). lia.
  - intros He.
    unfold monitoring_hours, after_hours, total_monitoring_hours, _split_hours.
    by rewrite He.
Qed.

Lemma dry_time_and_empty_totals_witness :
  Schedule_init ex_start ex_end [(mk_date 2025 9 21, None)]
  = Ret (mk_Schedule ex_start ex_end [])
  /\ dry_time (mk_Schedule ex_start ex_end []) = 2
  /\ monitoring_hours (mk_Schedule ex_start ex_end []) = 0.
Proof.
  assert (H : Schedule_init ex_start ex_end [(mk_date 2025 9 21, None)]
              = Ret (mk_Schedule ex_start ex_end []))
    by (vm_compute; reflexivity).
  destruct (dry_time_and_empty_totals ex_start ex_end
              [(mk_date 2025 9 21, None)] (mk_Schedule ex_start ex_end []) H)
    as (Hd & _ & _ & He).
  split; [exact H|]. split; [exact Hd|]. exact (proj1 (He eq_refl)).
Defined.

(** C9.  For every schedule the total is the sum of the normal and the
    after-hours amounts, it is the sum of the base weights of all stored
    entries, and none of the three amounts is negative. *)
Theorem total_is_sum_of_parts (s : Schedule) :
  total_monitoring_hours s = monitoring_hours s + after_hours s
  /\ total_monitoring_hours s = sumZ (weights s)
  /\ 0 <= monitoring_hours s
  /\ 0 <= after_hours s
  /\ 0 <= total_monitoring_hours s.
Proof.
  assert (Hn : 0 <= monitoring_hours s).
  { unfold monitoring_hours. rewrite _split_hours_sums. simpl.
    apply sumZ_nonneg, Forall_fmap, Forall_forall. intros e _.
    apply entry_hrs_nonneg. }
  assert (Ha : 0 <= after_hours s).
  { unfold after_hours. rewrite _split_hours_sums. simpl.
    apply sumZ_nonneg, Forall_fmap, Forall_forall. intros e _.
    apply entry_hrs_nonneg. }
  assert (Ht : total_monitoring_hours s = monitoring_hours s + after_hours s).
  { unfold total_monitoring_hours, monitoring_hours, after_hours.
    by destruct (_split_hours s). }
  split; [done|]. split; [apply total_is_sum|]. split; [done|].
  split; [done|]. lia.
Qed.

(** C10.  In a constructed schedule with [n] stored entries the total is 0
    for [n = 0], 4 for [n = 1] and [2 n + 4] for [n >= 2]; the classification
    of the entries plays no part. *)
Theorem total_by_count
    (sd ed : date) (l : list (date * option time)) (s : Schedule) :
  Schedule_init sd ed l = Ret s ->
  total_monitoring_hours s
  = match length (entries s) with
    | O => 0
    | S O => 4
    | n => 2 * Z.of_nat n + 4
    end.
Proof.
  intros Hs. rewrite total_is_sum.
  rewrite (sumZ_first_last (weights s)).
  - unfold weights. by rewrite length_fmap.
  - intros i x. by apply (weights_index sd ed l).
Qed.

Lemma total_by_count_witness :
  Schedule_init ex_start ex_end ex_unordered = Ret ex_schedule
  /\ total_monitoring_hours ex_schedule = 2 * 3 + 4.
Proof.
  assert (H : Schedule_init ex_start ex_end ex_unordered = Ret ex_schedule)
    by (vm_compute; reflexivity).
  split; [exact H|].
  exact (total_by_count ex_start ex_end ex_unordered ex_schedule H).
Defined.

(** ** The parser *)

(** C4.  [parse_date_time] never raises, and returns either a date that the
    [date] type admits with an optional time of day and no message, or no
    date, no time and a message that is not empty.  The message is
    ["Empty entry"] exactly for the tokens that are empty or made of spaces.
    A token with more than two parts yields the bad-entry message, which
    names the format 'MM/DD/YYYY [HHMM]', when its first part is a date, and
    the invalid-date message for its first part otherwise: the date is read
    before the parts are counted. *)
Theorem parse_date_time_outcomes (entry_str : string) :
  ((exists dt tm,
      parse_date_time entry_str = Ret (Some dt, tm, None)
      /\ date_ok dt = true
      /\ (forall x, tm = Some x -> time_ok x = true))
   \/ (exists msg,
         parse_date_time entry_str = Ret (None, None, Some msg)
         /\ msg <> EmptyString))
  /\ (whitespace_only entry_str = true
      <-> parse_date_time entry_str = Ret (None, None, Some msg_empty))
  /\ (forall p0 rest,
        split (strip entry_str) = p0 :: rest -> (2 <= length rest)%nat ->
        parse_date_time entry_str
        = match strptime_date p0 with
          | Ret _ => Ret (None, None, Some (msg_bad_entry (strip entry_str)))
          | Raise _ => Ret (None, None, Some (msg_invalid_date p0))
          end).
Proof.
  pose proof (parse_date_time_cases entry_str) as Hc.
  split; [|split].
  - destruct Hc as [[_ ->]|(p0 & rest & _ & [(msg & _ & ->)|(dt & _ & Hok & Hr)])].
    + right. by eexists.
    + right. by eexists.
    + destruct rest as [|p1 [|p2 rest]].
      * left. exists dt, None. by rewrite Hr.
      * destruct Hr as [(msg & _ & ->)|(tm & _ & Htm & ->)].
        -- right. by eexists.
        -- left. exists dt, (Some tm). split; [done|]. split; [done|].
           by intros x [= <-].
      * right. rewrite Hr. by eexists.
  - rewrite <- strip_empty. split.
    + intros He. destruct Hc as [[_ ->]|(p0 & rest & Hsp & _)]; [done|].
      by rewrite He in Hsp.
    + intros Hp.
      destruct Hc as [[? _]|(p0 & rest & _ & [(msg & _ & Hr)|(dt & _ & _ & Hr)])];
        [done| |].
      * rewrite Hr in Hp. discriminate.
      * destruct rest as [|p1 [|p2 rest]].
        -- rewrite Hr in Hp. discriminate.
        -- destruct Hr as [(msg & _ & Hr)|(tm & _ & _ & Hr)];
             rewrite Hr in Hp; discriminate.
        -- rewrite Hr in Hp. discriminate.
  - intros p0 rest Hsp Hlen.
    destruct Hc as [[He _]|(p0' & rest' & Hsp' & Hr)].
    { by rewrite He in Hsp. }
    rewrite Hsp in Hsp'. injection Hsp' as <- <-.
    destruct Hr as [(msg & -> & ->)|(dt & -> & _ & Hr)]; [done|].
    destruct rest as [|p1 [|p2 rest]]; simpl in Hlen; [lia|lia|done].
Qed.

(** C4, the claim as written fails: [ex_bad_token] has three parts, and the
    parser reports its first part as an invalid date, not a bad entry. *)
Lemma bad_entry_counterexample :
  length (split (strip ex_bad_token)) = 3%nat
  /\ parse_date_time ex_bad_token
     = Ret (None, None, Some "Invalid date '13/40/2025'. Use MM/DD/YYYY."%string)
  /\ parse_date_time ex_bad_token
     <> Ret (None, None, Some (msg_bad_entry (strip ex_bad_token))).
Proof. split; [reflexivity|]. split; [reflexivity|]. vm_compute. discriminate. Qed.

(** ** The example of the specification *)

(** C1.  On the example the schedule holds the three entries; 09/20/2025 is
    a Saturday, so its entry is after-hours like the other two, and the
    amounts are 0 normal hours, 10 after-hours, 10 in total and 2 dry
    days. *)
Theorem spec_example_totals :
  Schedule_init ex_start ex_end ex_entries = Ret ex_schedule
  /\ monitoring_hours ex_schedule = 0
  /\ after_hours ex_schedule = 10
  /\ total_monitoring_hours ex_schedule = 10
  /\ dry_time ex_schedule = 2
  /\ weekday (mk_date 2025 9 20) = 5
  /\ is_normal_window (mk_date 2025 9 20) None = false
  /\ weights ex_schedule = [4; 2; 4].
Proof. repeat split; vm_compute; reflexivity. Qed.

(** C1, the claim as written fails: no schedule built from the example has
    4 normal hours, 6 after-hours and a last entry in the normal window. *)
Lemma spec_example_counterexample :
  ~ (exists s,
       Schedule_init ex_start ex_end ex_entries = Ret s
       /\ monitoring_hours s = 4
       /\ after_hours s = 6
       /\ total_monitoring_hours s = 10
       /\ dry_time s = 2
       /\ is_normal_window (mk_date 2025 9 20) None = true).
Proof.
  intros (s & Hs & Hm & _).
  vm_compute in Hs. injection Hs as <-.
  vm_compute in Hm. discriminate.
Qed.

(** * Further properties of the program *)

(** ** What a schedule depends on *)

Section dependence.
Variables sd ed : date.
Implicit Types (l : list (date * option time)) (s : Schedule).

(** The schedule is a function of the dictionary [by_day], hence of the
    first pair of each date in range. *)
Lemma Schedule_init_ext l1 l2 :
  (forall dt, in_range sd ed dt = true -> first_time dt l1 = first_time dt l2) ->
  Schedule_init sd ed l1 = Schedule_init sd ed l2.
Proof.
  intros H.
  assert (Hm : foldl (by_day_step sd ed) ∅ l1 = foldl (by_day_step sd ed) ∅ l2).
  { apply map_eq. intros dt. rewrite !by_day_lookup_empty.
    destruct (in_range sd ed dt) eqn:Hr; [by apply H|done]. }
  unfold Schedule_init. by rewrite Hm.
Qed.

Lemma first_time_None l dt : first_time dt l = None <-> dt ∉ l.*1.
Proof.
  induction l as [|[d' tm] l IH]; simpl.
  - split; [intros _ H; inversion H|done].
  - rewrite not_elem_of_cons. destruct (decide (d' = dt)) as [->|Hne].
    + split; [done|]. by intros [? _].
    + rewrite IH. split; [by intros ?|by intros [_ ?]].
Qed.

Lemma first_time_NoDup l dt tm :
  NoDup l.*1 -> (dt, tm) ∈ l -> first_time dt l = Some tm.
Proof.
  induction l as [|[d' tm'] l IH]; intros Hnd Hin; [inversion Hin|].
  rewrite fmap_cons in Hnd. apply NoDup_cons in Hnd as [Hd' Hnd].
  simpl. apply elem_of_cons in Hin as [[= <- <-]|Hin].
  - by rewrite decide_True.
  - rewrite decide_False; [by apply IH|].
    intros ->. apply Hd'. apply list_elem_of_fmap. by exists (dt, tm).
Qed.

Lemma first_time_Permutation l1 l2 dt :
  NoDup l1.*1 -> l1 ≡ₚ l2 -> first_time dt l1 = first_time dt l2.
Proof.
  intros Hnd Hp. destruct (first_time dt l1) as [tm|] eqn:H1.
  - symmetry. apply first_time_NoDup.
    + by rewrite <- Hp.
    + rewrite <- Hp. by apply first_time_elem_of.
  - symmetry. apply first_time_None. rewrite <- Hp. by apply first_time_None.
Qed.

(** The number of stored entries is the number of keys of [by_day]. *)
Lemma length_entries l s :
  Schedule_init sd ed l = Ret s ->
  length (entries s) = size (foldl (by_day_step sd ed) ∅ l).
Proof.
  intros Hs. apply Schedule_init_inv in Hs as (_ & _ & _ & Hd & _).
  rewrite <- (length_fmap d), Hd, sorted_Permutation_self.
  unfold keys. by rewrite length_fmap, length_map_to_list.
Qed.

Lemma by_day_size l (m : gmap date (option time)) :
  (size (foldl (by_day_step sd ed) m l) <= size m + length l)%nat.
Proof.
  revert m. induction l as [|[d' tm] l IH]; intros m; simpl; [lia|].
  etrans; [apply IH|]. unfold by_day_step.
  destruct (date_leb sd d' && date_leb d' ed
            && bool_decide (m !! d' = None)) eqn:Hc; [|lia].
  apply andb_true_iff in Hc as [_ Hc]. apply bool_decide_eq_true in Hc.
  rewrite map_size_insert_None by done. lia.
Qed.

(** The entries of a constructed schedule, as input pairs again. *)
Lemma stored_pairs_first_time l s dt :
  Schedule_init sd ed l = Ret s -> in_range sd ed dt = true ->
  first_time dt ((fun e => (d e, t e)) <$> entries s) = first_time dt l.
Proof.
  intros Hs Hr.
  assert (Hfst : ((fun e => (d e, t e)) <$> entries s).*1 = d <$> entries s).
  { rewrite <- list_fmap_compose. by apply list_fmap_ext. }
  destruct (first_time dt l) as [tm|] eqn:Hl.
  - apply first_time_NoDup.
    + rewrite Hfst. apply StronglySorted_lt_NoDup.
      by apply (stored_dates_strict sd ed l).
    + assert (Hin : dt ∈ d <$> entries s).
      { apply (stored_dates sd ed l s dt Hs). rewrite Hl. eauto. }
      apply list_elem_of_fmap in Hin as ([d' t'] & Hd & He). simpl in Hd.
      subst d'. destruct (stored_entry_origin sd ed l s _ Hs He) as [_ Ht].
      simpl in Ht. rewrite Hl in Ht. injection Ht as <-.
      apply list_elem_of_fmap. by exists (mk_Entry dt tm).
  - apply first_time_None. rewrite Hfst.
    rewrite (stored_dates sd ed l s dt Hs), Hl. by intros [_ [? ?]].
Qed.

End dependence.

Section counting.
Variables sd ed : date.
Implicit Types (l : list (date * option time)) (s : Schedule).

Lemma total_count l s :
  Schedule_init sd ed l = Ret s ->
  total_monitoring_hours s = total_of_count (length (entries s)).
Proof.
  intros Hs. rewrite total_is_sum, (sumZ_first_last (weights s)).
  - unfold weights, total_of_count. rewrite length_fmap.
    by destruct (length (entries s)) as [|[|n]].
  - intros i x. by apply (weights_index sd ed l).
Qed.

Lemma total_of_count_mono n1 n2 :
  (n1 <= n2)%nat -> total_of_count n1 <= total_of_count n2.
Proof.
  unfold total_of_count. intros H.
  destruct n1 as [|[|n1]], n2 as [|[|n2]]; lia.
Qed.

(** Dates present in the input of one schedule and in that of another. *)
Lemma stored_dates_incl l1 l2 s1 s2 :
  Schedule_init sd ed l1 = Ret s1 -> Schedule_init sd ed l2 = Ret s2 ->
  (forall p, p ∈ l1 -> p.1 ∈ l2.*1) ->
  (length (entries s1) <= length (entries s2))%nat.
Proof.
  intros H1 H2 Hincl.
  rewrite <- (length_fmap d (entries s1)), <- (length_fmap d (entries s2)).
  apply submseteq_length, NoDup_submseteq.
  - apply StronglySorted_lt_NoDup. by apply (stored_dates_strict sd ed l1).
  - intros dt Hdt. apply (stored_dates sd ed l1 s1 dt H1) in Hdt as [Hr [tm Htm]].
    apply (stored_dates sd ed l2 s2 dt H2). split; [done|].
    apply first_time_elem_of in Htm. apply Hincl in Htm. simpl in Htm.
    destruct (first_time dt l2) eqn:E; [eauto|].
    by apply first_time_None in E.
Qed.

End counting.

(** ** Ordinals of valid dates *)

Section ordinals.

Lemma toordinal_strict a b :
  date_ok a = true -> date_ok b = true ->
  date_ltb a b = true -> toordinal a < toordinal b.
Proof.
  intros Ha Hb. rewrite date_ltb_spec.
  pose proof (toordinal_bounds a Ha) as Ba.
  pose proof (toordinal_bounds b Hb) as Bb.
  apply date_ok_spec in Ha as (Hya & Hma & Hda).
  apply date_ok_spec in Hb as (Hyb & Hmb & Hdb).
  intros [Hy|[Hy [Hm|[Hm Hd]]]].
  - pose proof (_days_before_year_mono (year a + 1) (year b) ltac:(lia)).
    lia.
  - unfold toordinal, _ymd2ord. rewrite Hy.
    pose proof (_days_before_month_next (year b) (month a) Hma) as Hn.
    destruct (Z.eqb_spec (month a) 12); [lia|].
    pose proof (_days_before_month_mono (year b) (month a + 1) (month b)
                  ltac:(lia) ltac:(lia) ltac:(lia)).
    rewrite Hy in Hda. lia.
  - unfold toordinal, _ymd2ord. rewrite Hy, Hm. lia.
Qed.

Lemma toordinal_range dt :
  date_ok dt = true -> 1 <= toordinal dt <= MAXORDINAL.
Proof.
  intros Hok. pose proof (toordinal_bounds dt Hok) as B.
  apply date_ok_spec in Hok as (Hy & _ & _).
  pose proof (_days_before_year_mono 1 (year dt) ltac:(lia)) as H1.
  pose proof (_days_before_year_mono (year dt + 1) 10000 ltac:(lia)) as H2.
  change (_days_before_year 1) with 0 in H1.
  change (_days_before_year 10000) with 3652059 in H2.
  unfold MAXORDINAL. lia.
Qed.

(** A strictly increasing list of integers within [lo, hi]. *)
Lemma increasing_length (w : list Z) lo hi :
  StronglySorted Z.lt w -> Forall (fun x => lo <= x <= hi) w ->
  Z.of_nat (length w) <= Z.max 0 (hi - lo + 1).
Proof.
  intros Hs. revert lo. induction Hs as [|x w Hs IH Hx]; intros lo Hb.
  - simpl. lia.
  - apply Forall_cons in Hb as [Hxb Hb].
    assert (Hb' : Forall (fun y => x + 1 <= y <= hi) w).
    { apply Forall_forall. intros y Hy.
      eapply Forall_forall in Hx; [|done]. eapply Forall_forall in Hb; [|done].
      lia. }
    specialize (IH (x + 1) Hb'). rewrite length_cons. lia.
Qed.

End ordinals.

(** ** Construction, continued *)

(** X1.  Building a schedule again from the stored entries of a constructed
    schedule, with the same range, gives the same schedule. *)
Theorem schedule_idempotent
    (sd ed : date) (l : list (date * option time)) (s : Schedule) :
  Schedule_init sd ed l = Ret s ->
  Schedule_init sd ed (entry_pairs s) = Ret s.
Proof.
  intros Hs. rewrite <- Hs. apply Schedule_init_ext. intros dt Hr.
  by apply (stored_pairs_first_time sd ed).
Qed.

Lemma schedule_idempotent_witness :
  Schedule_init ex_start ex_end ex_unordered = Ret ex_schedule
  /\ Schedule_init ex_start ex_end (entry_pairs ex_schedule) = Ret ex_schedule.
Proof.
  assert (H : Schedule_init ex_start ex_end ex_unordered = Ret ex_schedule)
    by (vm_compute; reflexivity).
  split; [exact H|].
  exact (schedule_idempotent ex_start ex_end ex_unordered ex_schedule H).
Defined.

(** X2.  When no date occurs twice in the input, the order of the pairs
    does not matter: a permutation of the input gives the same result. *)
Theorem schedule_permutation_invariant
    (sd ed : date) (l1 l2 : list (date * option time)) :
  NoDup l1.*1 -> l1 ≡ₚ l2 ->
  Schedule_init sd ed l1 = Schedule_init sd ed l2.
Proof.
  intros Hnd Hp. apply Schedule_init_ext. intros dt _.
  by apply first_time_Permutation.
Qed.

Lemma schedule_permutation_invariant_witness :
  NoDup ex_entries.*1
  /\ ex_entries ≡ₚ reverse ex_entries
  /\ Schedule_init ex_start ex_end ex_entries
     = Schedule_init ex_start ex_end (reverse ex_entries).
Proof.
  assert (H1 : NoDup ex_entries.*1).
  { refine (bool_decide_unpack _ _). vm_compute. exact I. }
  assert (H2 : ex_entries ≡ₚ reverse ex_entries)
    by (symmetry; apply reverse_Permutation).
  split; [exact H1|]. split; [exact H2|].
  exact (schedule_permutation_invariant ex_start ex_end ex_entries
           (reverse ex_entries) H1 H2).
Defined.

(** X3.  The dates of the stored entries are the dates of the input that
    lie in the range, without repetition and in ascending order. *)
Theorem stored_dates_closed_form
    (sd ed : date) (l : list (date * option time)) (s : Schedule) :
  Schedule_init sd ed l = Ret s ->
  d <$> entries s
  = sorted (remove_dups (filter (fun dt => in_range sd ed dt = true) l.*1)).
Proof.
  intros Hs.
  destruct (Schedule_init_inv sd ed l s Hs) as (_ & _ & _ & Hd & _).
  rewrite Hd. apply sorted_Permutation. apply NoDup_Permutation.
  - apply NoDup_keys.
  - apply NoDup_remove_dups.
  - intros dt. rewrite elem_of_keys, by_day_lookup_empty.
    rewrite elem_of_remove_dups, list_elem_of_filter.
    destruct (in_range sd ed dt) eqn:Hr.
    + destruct (first_time dt l) as [tm|] eqn:Hf.
      * split; [|eauto]. intros _. split; [done|].
        apply first_time_elem_of in Hf. apply list_elem_of_fmap.
        by exists (dt, tm).
      * apply first_time_None in Hf. split; [by intros [? ?]|by intros [_ ?]].
    + split; [by intros [? ?]|by intros [? _]].
Qed.

Lemma stored_dates_closed_form_witness :
  Schedule_init ex_start ex_end ex_unordered = Ret ex_schedule
  /\ d <$> entries ex_schedule
     = sorted (remove_dups
                 (filter (fun dt => in_range ex_start ex_end dt = true)
                         ex_unordered.*1)).
Proof.
  assert (H : Schedule_init ex_start ex_end ex_unordered = Ret ex_schedule)
    by (vm_compute; reflexivity).
  split; [exact H|].
  exact (stored_dates_closed_form ex_start ex_end ex_unordered ex_schedule H).
Defined.

(** ** Counting the stored entries *)

Section days.
Variables sd ed : date.
Implicit Types (l : list (date * option time)) (s : Schedule).

Lemma ordinals_increasing (ds : list date) :
  Forall (fun dt => date_ok dt = true) ds ->
  StronglySorted date_lt ds -> StronglySorted Z.lt (toordinal <$> ds).
Proof.
  intros Hok Hs. induction Hs as [|x ds Hs IH Hx]; [constructor|].
  apply Forall_cons in Hok as [Hokx Hok]. rewrite fmap_cons.
  constructor; [by apply IH|].
  apply Forall_fmap, Forall_forall. intros y Hy. simpl.
  apply toordinal_strict; [done| |].
  - by eapply Forall_forall in Hok.
  - by eapply Forall_forall in Hx.
Qed.

(** At most one stored entry per day of the range. *)
Lemma entries_within_days l s :
  Schedule_init sd ed l = Ret s ->
  date_ok sd = true -> date_ok ed = true ->
  Forall (fun p => date_ok p.1 = true) l ->
  0 <= days (date_sub ed sd)
  /\ Z.of_nat (length (entries s)) <= days (date_sub ed sd) + 1.
Proof.
  intros Hs Hsd Hed Hl.
  destruct (Schedule_init_inv sd ed l s Hs) as (Hlt & _ & _ & _ & _).
  assert (Hle : date_leb sd ed = true) by by rewrite date_leb_ltb, Hlt.
  pose proof (toordinal_mono sd ed Hsd Hed Hle) as Hord. simpl.
  split; [lia|].
  assert (Hok : Forall (fun dt => date_ok dt = true) (d <$> entries s)).
  { apply Forall_fmap, Forall_forall. intros e He. simpl.
    destruct (stored_entry_origin sd ed l s e Hs He) as [_ Ht].
    apply first_time_elem_of in Ht.
    by eapply Forall_forall in Hl; [|exact Ht]. }
  pose proof (increasing_length (toordinal <$> (d <$> entries s))
                (toordinal sd) (toordinal ed)) as Hlen.
  rewrite !length_fmap in Hlen.
  etrans; [apply Hlen|lia].
  - apply ordinals_increasing; [done|].
    by apply (stored_dates_strict sd ed l).
  - apply Forall_fmap, Forall_fmap, Forall_forall. intros e He. simpl.
    destruct (stored_entry_origin sd ed l s e Hs He) as [Hr _].
    apply andb_true_iff in Hr as [H1 H2].
    eapply Forall_forall in Hok; [|by apply list_elem_of_fmap_2].
    split; by apply toordinal_mono.
Qed.

End days.

(** X4.  A constructed schedule stores at most one entry per pair of the
    input and, for dates that the [date] type admits, at most one entry per
    day of the range: at most [dry_time + 1] entries. *)
Theorem entries_count_bounds
    (sd ed : date) (l : list (date * option time)) (s : Schedule) :
  Schedule_init sd ed l = Ret s ->
  (length (entries s) <= length l)%nat
  /\ (date_ok sd = true -> date_ok ed = true ->
      Forall (fun p => date_ok p.1 = true) l ->
      Z.of_nat (length (entries s)) <= dry_time s + 1).
Proof.
  intros Hs. split.
  - rewrite (length_entries sd ed l s Hs).
    pose proof (by_day_size sd ed l ∅) as H. rewrite map_size_empty in H. lia.
  - intros Hsd Hed Hl.
    destruct (entries_within_days sd ed l s Hs Hsd Hed Hl) as [H0 Hn].
    destruct (Schedule_init_inv sd ed l s Hs) as (_ & Hs1 & Hs2 & _).
    unfold dry_time. rewrite Hs1, Hs2. lia.
Qed.

Lemma entries_count_bounds_witness :
  Schedule_init ex_start ex_end ex_unordered = Ret ex_schedule
  /\ (length (entries ex_schedule) <= length ex_unordered)%nat.
Proof.
  assert (H : Schedule_init ex_start ex_end ex_unordered = Ret ex_schedule)
    by (vm_compute; reflexivity).
  split; [exact H|].
  exact (proj1 (entries_count_bounds ex_start ex_end ex_unordered
                  ex_schedule H)).
Defined.

(** X5.  For dates that the [date] type admits, the total of a constructed
    schedule is at most [2 * dry_time + 6]; [dry_time] is below the number
    of days of the calendar, so every hour amount is an integer below
    [2 ^ 53]. *)
Theorem total_hours_bounds
    (sd ed : date) (l : list (date * option time)) (s : Schedule) :
  Schedule_init sd ed l = Ret s ->
  date_ok sd = true -> date_ok ed = true ->
  Forall (fun p => date_ok p.1 = true) l ->
  total_monitoring_hours s <= 2 * dry_time s + 6
  /\ dry_time s < MAXORDINAL
  /\ monitoring_hours s + after_hours s < 2 ^ 53.
Proof.
  intros Hs Hsd Hed Hl.
  destruct (entries_within_days sd ed l s Hs Hsd Hed Hl) as [H0 Hn].
  destruct (Schedule_init_inv sd ed l s Hs) as (_ & Hs1 & Hs2 & _).
  assert (Hdry : dry_time s = days (date_sub ed sd)).
  { unfold dry_time. rewrite Hs1, Hs2. lia. }
  assert (Htot : total_monitoring_hours s <= 2 * dry_time s + 6).
  { rewrite (total_count sd ed l s Hs), Hdry. unfold total_of_count.
    destruct (length (entries s)) as [|[|n]]; lia. }
  assert (Hmax : dry_time s < MAXORDINAL).
  { rewrite Hdry. simpl.
    pose proof (toordinal_range sd Hsd). pose proof (toordinal_range ed Hed).
    lia. }
  split; [done|]. split; [done|].
  assert (Hsum : total_monitoring_hours s
                 = monitoring_hours s + after_hours s).
  { unfold total_monitoring_hours, monitoring_hours, after_hours.
    by destruct (_split_hours s). }
  rewrite <- Hsum. unfold MAXORDINAL in Hmax.
  change (2 ^ 53) with 9007199254740992. lia.
Qed.

Lemma total_hours_bounds_witness :
  Schedule_init ex_start ex_end ex_unordered = Ret ex_schedule
  /\ date_ok ex_start = true /\ date_ok ex_end = true
  /\ Forall (fun p : date * option time => date_ok p.1 = true) ex_unordered
  /\ total_monitoring_hours ex_schedule <= 2 * dry_time ex_schedule + 6.
Proof.
  assert (H : Schedule_init ex_start ex_end ex_unordered = Ret ex_schedule)
    by (vm_compute; reflexivity).
  assert (Hl : Forall (fun p : date * option time => date_ok p.1 = true)
                 ex_unordered) by (repeat constructor).
  split; [exact H|]. split; [reflexivity|]. split; [reflexivity|].
  split; [exact Hl|].
  exact (proj1 (total_hours_bounds ex_start ex_end ex_unordered ex_schedule
                  H eq_refl eq_refl Hl)).
Defined.

(** X6.  Supplying more dates never lowers the total: when every date of
    one input also occurs in another input, the schedule built from the
    first, with the same range, has at most as many stored entries and at
    most the total of the schedule built from the second. *)
Theorem total_monotone
    (sd ed : date) (l1 l2 : list (date * option time)) (s1 s2 : Schedule) :
  Schedule_init sd ed l1 = Ret s1 -> Schedule_init sd ed l2 = Ret s2 ->
  (forall p, p ∈ l1 -> p.1 ∈ l2.*1) ->
  (length (entries s1) <= length (entries s2))%nat
  /\ total_monitoring_hours s1 <= total_monitoring_hours s2.
Proof.
  intros H1 H2 Hincl.
  pose proof (stored_dates_incl sd ed l1 l2 s1 s2 H1 H2 Hincl) as Hlen.
  split; [done|].
  rewrite (total_count sd ed l1 s1 H1), (total_count sd ed l2 s2 H2).
  by apply total_of_count_mono.
Qed.

Lemma total_monotone_witness :
  Schedule_init ex_start ex_end [(mk_date 2025 9 19, None)]
  = Ret (mk_Schedule ex_start ex_end [mk_Entry (mk_date 2025 9 19) None])
  /\ Schedule_init ex_start ex_end ex_entries = Ret ex_schedule
  /\ total_monitoring_hours
       (mk_Schedule ex_start ex_end [mk_Entry (mk_date 2025 9 19) None])
     <= total_monitoring_hours ex_schedule.
Proof.
  assert (H1 : Schedule_init ex_start ex_end [(mk_date 2025 9 19, None)]
               = Ret (mk_Schedule ex_start ex_end
                        [mk_Entry (mk_date 2025 9 19) None]))
    by (vm_compute; reflexivity).
  assert (H2 : Schedule_init ex_start ex_end ex_entries = Ret ex_schedule)
    by (vm_compute; reflexivity).
  assert (H3 : forall p : date * option time,
             p ∈ [(mk_date 2025 9 19, @None time)] -> p.1 ∈ ex_entries.*1).
  { intros p Hp. apply list_elem_of_singleton in Hp. subst p.
    simpl. right. left. }
  split; [exact H1|]. split; [exact H2|].
  exact (proj2 (total_monotone ex_start ex_end _ _ _ _ H1 H2 H3)).
Defined.

(** X7.  For dates that the [date] type admits, a constructed schedule has
    [dry_time] 0 exactly when its range is a single day. *)
Theorem dry_time_zero_iff
    (sd ed : date) (l : list (date * option time)) (s : Schedule) :
  Schedule_init sd ed l = Ret s ->
  date_ok sd = true -> date_ok ed = true ->
  (dry_time s = 0 <-> sd = ed).
Proof.
  intros Hs Hsd Hed.
  destruct (Schedule_init_inv sd ed l s Hs) as (Hlt & Hs1 & Hs2 & _).
  unfold dry_time. rewrite Hs1, Hs2. simpl. split.
  - intros H0. destruct (decide (sd = ed)) as [|Hne]; [done|].
    assert (Hlt' : date_ltb sd ed = true).
    { apply date_ltb_leb_neq. split; [|done]. by rewrite date_leb_ltb, Hlt. }
    pose proof (toordinal_strict sd ed Hsd Hed Hlt'). lia.
  - intros ->. lia.
Qed.

Lemma dry_time_zero_iff_witness :
  Schedule_init ex_start ex_start ex_entries
  = Ret (mk_Schedule ex_start ex_start
           [mk_Entry (mk_date 2025 9 18) (Some (time_hm 7 0))])
  /\ dry_time (mk_Schedule ex_start ex_start
                 [mk_Entry (mk_date 2025 9 18) (Some (time_hm 7 0))]) = 0.
Proof.
  assert (H : Schedule_init ex_start ex_start ex_entries
              = Ret (mk_Schedule ex_start ex_start
                       [mk_Entry (mk_date 2025 9 18) (Some (time_hm 7 0))]))
    by (vm_compute; reflexivity).
  split; [exact H|].
  exact (proj2 (dry_time_zero_iff ex_start ex_start ex_entries _ H
                  eq_refl eq_refl) eq_refl).
Defined.

(** ** Reading the tokens *)

Section tokens.
Implicit Types (s r x : string) (c a : ascii).

Lemma rstrip_empty s : rstrip s = EmptyString <-> whitespace_only s = true.
Proof.
  induction s as [|c s IH]; simpl; [done|].
  destruct (is_space c); simpl.
  - rewrite <- IH. destruct (rstrip s); simpl; split; done.
  - split; discriminate.
Qed.

Lemma rstrip_idem s : rstrip (rstrip s) = rstrip s.
Proof.
  induction s as [|c s IH]; simpl; [done|].
  destruct (is_space c && is_empty (rstrip s)) eqn:Hc; [done|].
  simpl. by rewrite IH, Hc.
Qed.

Lemma lstrip_fixed c r : is_space c = false -> lstrip (String c r) = String c r.
Proof. intros Hc. simpl. by rewrite Hc. Qed.

Lemma strip_idem s : strip (strip s) = strip s.
Proof.
  destruct (strip s) as [|c r] eqn:Hs; [done|].
  pose proof (strip_head s c r Hs) as Hc.
  unfold strip. rewrite (lstrip_fixed c r Hc), <- Hs.
  unfold strip. apply rstrip_idem.
Qed.

Lemma has_char_lstrip a s : has_char a s = false -> has_char a (lstrip s) = false.
Proof.
  induction s as [|c s IH]; simpl; [done|].
  intros H. apply orb_false_iff in H as [H1 H2].
  destruct (is_space c); [by apply IH|]. simpl. by rewrite H1, H2.
Qed.

Lemma has_char_rstrip a s : has_char a s = false -> has_char a (rstrip s) = false.
Proof.
  induction s as [|c s IH]; simpl; [done|].
  intros H. apply orb_false_iff in H as [H1 H2].
  destruct (is_space c && is_empty (rstrip s)); [done|].
  simpl. by rewrite H1, IH.
Qed.

Lemma has_char_strip a s : has_char a s = false -> has_char a (strip s) = false.
Proof. intros H. by apply has_char_rstrip, has_char_lstrip. Qed.

Lemma split_on_pieces a s p : p ∈ split_on a s -> has_char a p = false.
Proof.
  revert p. induction s as [|c s IH]; simpl; intros p Hp.
  - apply list_elem_of_singleton in Hp. by subst.
  - destruct (Ascii.eqb c a) eqn:Hc.
    + apply elem_of_cons in Hp as [->|Hp]; [done|by apply IH].
    + destruct (split_on a s) as [|w ws].
      * apply list_elem_of_singleton in Hp. subst. simpl. by rewrite Hc.
      * apply elem_of_cons in Hp as [->|Hp].
        -- simpl. rewrite Hc. apply IH. by left.
        -- apply IH. by right.
Qed.

Lemma split_on_whole a x : has_char a x = false -> split_on a x = [x].
Proof.
  induction x as [|c x IH]; simpl; [done|].
  intros H. apply orb_false_iff in H as [H1 H2]. by rewrite H1, IH.
Qed.

Lemma split_on_app a x r :
  has_char a x = false ->
  split_on a (x ++ String a r) = x :: split_on a r.
Proof.
  induction x as [|c x IH]; simpl.
  - intros _. by rewrite Ascii.eqb_refl.
  - intros H. apply orb_false_iff in H as [H1 H2]. by rewrite H1, IH.
Qed.

(** The empty-entry message belongs to the tokens that strip to nothing. *)
Lemma parse_empty_error entry_str :
  parse_date_time entry_str = Ret (None, None, Some msg_empty) ->
  strip entry_str = EmptyString.
Proof.
  intros Hp.
  destruct (parse_date_time_cases entry_str)
    as [[? _]|(p0 & rest & _ & [(msg & _ & Hr)|(dt & _ & _ & Hr)])]; [done| |].
  - rewrite Hr in Hp. discriminate.
  - destruct rest as [|p1 [|p2 rest]].
    + rewrite Hr in Hp. discriminate.
    + destruct Hr as [(msg & _ & Hr)|(tm & _ & _ & Hr)];
        rewrite Hr in Hp; discriminate.
    + rewrite Hr in Hp. discriminate.
Qed.

Lemma load_entries_clean s tok :
  tok ∈ load_entries_from_text s -> clean_token tok.
Proof.
  unfold load_entries_from_text. intros Hin.
  apply list_elem_of_fmap in Hin as (p & -> & Hp).
  apply list_elem_of_filter in Hp as [Hne Hp].
  split; [|split].
  - intros He. by rewrite He in Hne.
  - apply strip_idem.
  - apply has_char_strip. by apply (split_on_pieces _ s).
Qed.

End tokens.

(** X8.  Every token that [load_entries_from_text] returns is not empty,
    has no space at either end (stripping it changes nothing) and holds no
    comma. *)
Theorem load_entries_from_text_tokens (s tok : string) :
  tok ∈ load_entries_from_text s ->
  tok <> EmptyString /\ strip tok = tok /\ has_char "," tok = false.
Proof. apply load_entries_clean. Qed.

Lemma load_entries_from_text_tokens_witness :
  "09/19/2025 1800"%string
    ∈ load_entries_from_text " 09/18/2025 0700, ,09/19/2025 1800 ,"
  /\ strip "09/19/2025 1800" = "09/19/2025 1800"%string.
Proof.
  assert (H : "09/19/2025 1800"%string
                ∈ load_entries_from_text " 09/18/2025 0700, ,09/19/2025 1800 ,")
    by (vm_compute; right; left).
  split; [exact H|].
  exact (proj1 (proj2 (load_entries_from_text_tokens _ _ H))).
Defined.

(** X9.  The tokens read from the text area never produce the empty-entry
    message of [parse_date_time]: that branch is out of reach on this
    path. *)
Theorem text_tokens_never_empty_error (s tok : string) :
  tok ∈ load_entries_from_text s ->
  parse_date_time tok <> Ret (None, None, Some msg_empty).
Proof.
  intros Hin Hp. destruct (load_entries_clean s tok Hin) as (Hne & Hst & _).
  apply parse_empty_error in Hp. congruence.
Qed.

Lemma text_tokens_never_empty_error_witness :
  "x"%string ∈ load_entries_from_text " , x ,"
  /\ parse_date_time "x" <> Ret (None, None, Some msg_empty).
Proof.
  assert (H : "x"%string ∈ load_entries_from_text " , x ,")
    by (vm_compute; left).
  split; [exact H|].
  exact (text_tokens_never_empty_error _ _ H).
Defined.

(** X10.  Round trip: tokens that are not empty, have no space at either
    end and hold no comma are read back unchanged, and in order, from the
    text that lists them separated by a comma and a space. *)
Theorem load_entries_from_text_join (toks : list string) :
  Forall clean_token toks ->
  load_entries_from_text (join_comma toks) = toks.
Proof.
  unfold load_entries_from_text.
  induction 1 as [|x toks (Hne & Hst & Hc) Htoks IH]; [done|].
  destruct toks as [|y toks].
  - simpl join_comma. rewrite (split_on_whole _ _ Hc), filter_cons.
    rewrite decide_True; [by rewrite fmap_cons, Hst|].
    rewrite Hst. by destruct x.
  - change (join_comma (x :: y :: toks))
      with (x ++ String "," (String " " (join_comma (y :: toks))))%string.
    rewrite (split_on_app _ _ _ Hc), filter_cons.
    rewrite decide_True; [|rewrite Hst; by destruct x].
    rewrite fmap_cons, Hst. f_equal.
    rewrite <- IH at 2. clear IH.
    apply Forall_cons in Htoks as [(Hy & Hsty & Hcy) _].
    destruct y as [|c y]; [done|].
    assert (Hcs : is_space c = false) by by apply (strip_head _ c y Hsty).
    assert (Hcc : Ascii.eqb c "," = false).
    { simpl in Hcy. by apply orb_false_iff in Hcy as [? _]. }
    destruct toks as [|z toks].
    + simpl join_comma. simpl in Hcy. apply orb_false_iff in Hcy as [_ Hcy].
      cbn [split_on]. rewrite (split_on_whole _ _ Hcy), Hcc.
      change (Ascii.eqb " " ",") with false. cbn iota.
      rewrite !filter_cons.
      assert (Hsp : strip (String " " (String c y)) = strip (String c y))
        by (unfold strip; simpl; by rewrite Hcs).
      rewrite Hsp. by destruct (decide _).
    + change (join_comma (String c y :: z :: toks))
        with (String c y ++ String "," (String " " (join_comma (z :: toks))))%string.
      change (String " " (String c y ++ ?r))%string
        with (String " " (String c y) ++ r)%string.
      assert (Hcy' : has_char "," (String " " (String c y)) = false)
        by (simpl; simpl in Hcy; by rewrite Hcy).
      rewrite (split_on_app _ _ _ Hcy'), (split_on_app _ _ _ Hcy).
      rewrite !filter_cons.
      assert (Hsp : strip (String " " (String c y)) = strip (String c y))
        by (unfold strip; simpl; by rewrite Hcs).
      rewrite Hsp. by destruct (decide _).
Qed.

Lemma load_entries_from_text_join_witness :
  Forall clean_token ["09/18/2025 0700"; "09/20/2025"]%string
  /\ load_entries_from_text
       (join_comma ["09/18/2025 0700"; "09/20/2025"]%string)
     = ["09/18/2025 0700"; "09/20/2025"]%string.
Proof.
  assert (H : Forall clean_token ["09/18/2025 0700"; "09/20/2025"]%string)
    by (repeat constructor; discriminate).
  split; [exact H|].
  exact (load_entries_from_text_join _ H).
Defined.

(** ** The two formats of [strptime] *)

Section formats.
Implicit Types (s r : string) (k n : Z).

Lemma Forall_seqZ_range (P : Z -> Prop) lo len m :
  Forall P (seqZ lo len) -> lo <= m < lo + len -> P m.
Proof.
  intros HP Hm. eapply Forall_forall in HP; [exact HP|].
  apply elem_of_seqZ. lia.
Qed.

Ltac by_cases lo len :=
  let l := eval vm_compute in (seqZ lo len) in
  change (seqZ lo len) with l;
  repeat (apply Forall_cons; split; [intros; eexists; reflexivity|]);
  apply Forall_nil_2.

Lemma any_digit_char k r :
  0 <= k <= 9 -> any_digit (String (digit_char k) r) = [(k, r)].
Proof.
  intros Hk. revert r.
  apply (Forall_seqZ_range
           (fun k => forall r, any_digit (String (digit_char k) r) = [(k, r)])
           0 10); [|lia].
  let l := eval vm_compute in (seqZ 0 10) in change (seqZ 0 10) with l.
  repeat (apply Forall_cons; split; [intros; reflexivity|]).
  apply Forall_nil_2.
Qed.

Lemma cat_first {A B C} (f : A -> B -> C) (p : pattern A) (q : pattern B)
    s v r w r' :
  first_match p s v r -> first_match q r w r' ->
  first_match (cat f p q) s (f v w) r'.
Proof.
  intros [tl1 H1] [tl2 H2]. eexists. unfold cat.
  rewrite H1, bind_cons. simpl. rewrite H2, bind_cons. simpl. reflexivity.
Qed.

Lemma lit_first a r : first_match (lit a) (String a r) 0 r.
Proof. exists []. simpl. by rewrite Ascii.eqb_refl. Qed.

Lemma re_m_first n r :
  1 <= n <= 12 -> first_match re_m (two_digits n ++ r) n r.
Proof.
  intros Hn. revert r.
  apply (Forall_seqZ_range
           (fun n => forall r, first_match re_m (two_digits n ++ r) n r) 1 12);
    [|lia].
  by_cases 1 12.
Qed.

Lemma re_d_first n r :
  1 <= n <= 31 -> first_match re_d (two_digits n ++ r) n r.
Proof.
  intros Hn. revert r.
  apply (Forall_seqZ_range
           (fun n => forall r, first_match re_d (two_digits n ++ r) n r) 1 31);
    [|lia].
  by_cases 1 31.
Qed.

Lemma re_H_first n r :
  0 <= n <= 23 -> first_match re_H (two_digits n ++ r) n r.
Proof.
  intros Hn. revert r.
  apply (Forall_seqZ_range
           (fun n => forall r, first_match re_H (two_digits n ++ r) n r) 0 24);
    [|lia].
  by_cases 0 24.
Qed.

Lemma re_M_first n r :
  0 <= n <= 59 -> first_match re_M (two_digits n ++ r) n r.
Proof.
  intros Hn. revert r.
  apply (Forall_seqZ_range
           (fun n => forall r, first_match re_M (two_digits n ++ r) n r) 0 60);
    [|lia].
  by_cases 0 60.
Qed.

Lemma two_any_first n r :
  0 <= n <= 99 ->
  first_match (two any_digit any_digit) (two_digits n ++ r) n r.
Proof.
  intros Hn. unfold two, two_digits. simpl String.append.
  replace n with (10 * (n / 10) + n mod 10) at 3
    by (Z.div_mod_to_equations; lia).
  apply (cat_first (fun a b => 10 * a + b) any_digit any_digit _ _
           (String (digit_char (n mod 10)) r)).
  - exists []. apply any_digit_char. Z.div_mod_to_equations; lia.
  - exists []. apply any_digit_char. Z.div_mod_to_equations; lia.
Qed.

Lemma re_Y_first n :
  0 <= n <= 9999 -> first_match re_Y (four_digits n) n EmptyString.
Proof.
  intros Hn. unfold re_Y, four_digits.
  replace n with (100 * (n / 100) + n mod 100) at 3
    by (Z.div_mod_to_equations; lia).
  apply (cat_first (fun a b => 100 * a + b) (two any_digit any_digit)
           (two any_digit any_digit) _ _ (two_digits (n mod 100))).
  - apply two_any_first. Z.div_mod_to_equations; lia.
  - replace (two_digits (n mod 100))
      with (two_digits (n mod 100) ++ EmptyString)%string at 1 by reflexivity.
    apply two_any_first. Z.div_mod_to_equations; lia.
Qed.

Lemma full_match_first {A} (p : pattern A) s v :
  first_match p s v EmptyString -> full_match p s = Ret v.
Proof. intros [tl H]. unfold full_match. by rewrite H. Qed.

Lemma strptime_date_format dt :
  date_ok dt = true -> strptime_date (format_date dt) = Ret dt.
Proof.
  intros Hok. pose proof Hok as Hok'.
  apply date_ok_spec in Hok' as (Hy & Hm & Hd).
  assert (Hd31 : day dt <= 31).
  { unfold _days_in_month, _DAYS_IN_MONTH in Hd.
    destruct (month_cases _ Hm) as
      [E|[E|[E|[E|[E|[E|[E|[E|[E|[E|[E|E]]]]]]]]]]];
      rewrite E in Hd; simpl in Hd; destruct (_is_leap (year dt)); simpl in Hd;
      lia. }
  assert (Hfm : first_match re_mdY (format_date dt)
                  (month dt, day dt, year dt) EmptyString).
  { pose proof (re_m_first (month dt)
                  ("/" ++ two_digits (day dt) ++ "/"
                   ++ four_digits (year dt))%string Hm) as Hm1.
    pose proof (lit_first "/"
                  (two_digits (day dt) ++ "/" ++ four_digits (year dt))%string)
      as Hl1.
    pose proof (cat_first (fun m _ : Z => m) re_m (lit "/") _ _ _ _ _ Hm1 Hl1)
      as Hc1.
    pose proof (re_d_first (day dt) ("/" ++ four_digits (year dt))%string
                  ltac:(lia)) as Hd1.
    pose proof (cat_first (fun m dd : Z => (m, dd)) _ re_d _ _ _ _ _ Hc1 Hd1)
      as Hc2.
    pose proof (lit_first "/" (four_digits (year dt))) as Hl2.
    pose proof (re_Y_first (year dt) ltac:(lia)) as HY.
    pose proof (cat_first (fun _ y : Z => y) (lit "/") re_Y _ _ _ _ _ Hl2 HY)
      as Hc3.
    exact (cat_first (fun (md : Z * Z) (y : Z) => (md, y)) _ _ _ _ _ _ _
             Hc2 Hc3). }
  unfold strptime_date. rewrite (full_match_first _ _ _ Hfm). simpl.
  destruct dt as [y m dd]. simpl in *. by rewrite Hok.
Qed.

Lemma strptime_time_format h m :
  0 <= h <= 23 -> 0 <= m <= 59 ->
  strptime_time (format_hhmm h m) = Ret (time_hm h m).
Proof.
  intros Hh Hm.
  assert (Hfm : first_match re_HM (format_hhmm h m) (h, m) EmptyString).
  { pose proof (re_H_first h (two_digits m) Hh) as H1.
    pose proof (re_M_first m EmptyString Hm) as H2.
    exact (cat_first (fun a b : Z => (a, b)) re_H re_M _ _ _ _ _ H1 H2). }
  unfold strptime_time. rewrite (full_match_first _ _ _ Hfm). simpl.
  assert (Hok : time_ok (time_hm h m) = true).
  { apply time_ok_spec. simpl. lia. }
  by rewrite Hok.
Qed.

End formats.

(** ** Spaces around and inside a token *)

Section spaces.
Implicit Types (s r a b w : string) (c : ascii).

Lemma append_nil_l s : (EmptyString ++ s)%string = s.
Proof. reflexivity. Qed.

Lemma append_cons c a s : (String c a ++ s)%string = String c (a ++ s).
Proof. reflexivity. Qed.

Lemma no_space_app a b : no_space (a ++ b) = no_space a && no_space b.
Proof.
  induction a as [|c a IH]; [done|].
  rewrite append_cons. cbn [no_space]. by rewrite IH, andb_assoc.
Qed.

Lemma lstrip_no_space s : no_space s = true -> lstrip s = s.
Proof.
  destruct s as [|c s]; simpl; [done|]. intros H.
  apply andb_true_iff in H as [H _]. apply negb_true_iff in H. by rewrite H.
Qed.

Lemma rstrip_no_space s : no_space s = true -> rstrip s = s.
Proof.
  induction s as [|c s IH]; simpl; [done|]. intros H.
  apply andb_true_iff in H as [H1 H2]. apply negb_true_iff in H1.
  by rewrite H1, IH.
Qed.

Lemma rstrip_app a r :
  rstrip r <> EmptyString -> (rstrip (a ++ r) = a ++ rstrip r)%string.
Proof.
  intros Hr. induction a as [|c a IH]; [done|].
  rewrite !append_cons. cbn [rstrip]. rewrite IH.
  destruct (a ++ rstrip r)%string eqn:E.
  - destruct a; [rewrite append_nil_l in E; congruence|discriminate].
  - by rewrite andb_false_r.
Qed.

Lemma split_no_space s :
  no_space s = true -> s <> EmptyString -> split s = [s].
Proof.
  induction s as [|c s IH]; [done|]. intros H _. simpl in H.
  apply andb_true_iff in H as [H1 H2]. apply negb_true_iff in H1.
  simpl. rewrite H1. destruct s as [|c' s']; [done|].
  pose proof H2 as H2'. simpl in H2'.
  apply andb_true_iff in H2' as [H3 _]. apply negb_true_iff in H3.
  rewrite H3. by rewrite IH.
Qed.

Lemma split_app_space a r :
  no_space a = true -> a <> EmptyString ->
  split (a ++ String " " r) = a :: split r.
Proof.
  induction a as [|c a IH]; [done|]. intros H _. simpl in H.
  apply andb_true_iff in H as [H1 H2]. apply negb_true_iff in H1.
  rewrite append_cons. cbn [split]. rewrite H1. destruct a as [|c' a'].
  - rewrite append_nil_l. reflexivity.
  - pose proof H2 as H2'. simpl in H2'.
    apply andb_true_iff in H2' as [H3 _]. apply negb_true_iff in H3.
    rewrite append_cons, H3, <- append_cons. by rewrite IH.
Qed.

Lemma lstrip_app_ws w s : whitespace_only w = true -> lstrip (w ++ s) = lstrip s.
Proof.
  induction w as [|c w IH]; [done|]. intros H. cbn [whitespace_only] in H.
  apply andb_true_iff in H as [H1 H2].
  rewrite append_cons. cbn [lstrip]. rewrite H1. by apply IH.
Qed.

Lemma rstrip_app_ws s w : whitespace_only w = true -> rstrip (s ++ w) = rstrip s.
Proof.
  intros Hw. induction s as [|c s IH].
  - rewrite append_nil_l. by apply rstrip_empty.
  - rewrite append_cons. cbn [rstrip]. by rewrite IH.
Qed.

Lemma strip_app_ws s w : whitespace_only w = true -> strip (s ++ w) = strip s.
Proof.
  intros Hw. unfold strip. induction s as [|c s IH].
  - rewrite append_nil_l. replace (lstrip w) with EmptyString; [done|].
    symmetry. by apply lstrip_empty.
  - rewrite append_cons. cbn [lstrip]. destruct (is_space c); [done|].
    rewrite <- append_cons. by apply rstrip_app_ws.
Qed.

Lemma digit_char_not_space k : 0 <= k <= 9 -> is_space (digit_char k) = false.
Proof.
  intros Hk.
  apply (Forall_seqZ_range (fun k => is_space (digit_char k) = false) 0 10);
    [|lia].
  let l := eval vm_compute in (seqZ 0 10) in change (seqZ 0 10) with l.
  repeat (apply Forall_cons; split; [reflexivity|]). apply Forall_nil_2.
Qed.

Lemma no_space_two_digits n : 0 <= n <= 99 -> no_space (two_digits n) = true.
Proof.
  intros Hn. unfold two_digits. simpl.
  rewrite !digit_char_not_space by (Z.div_mod_to_equations; lia). done.
Qed.

Lemma no_space_format_date dt :
  date_ok dt = true -> no_space (format_date dt) = true.
Proof.
  intros Hok. pose proof Hok as (Hy & Hm & Hd)%date_ok_spec.
  assert (day dt <= 31).
  { unfold _days_in_month, _DAYS_IN_MONTH in Hd.
    destruct (month_cases _ Hm) as
      [E|[E|[E|[E|[E|[E|[E|[E|[E|[E|[E|E]]]]]]]]]]];
      rewrite E in Hd; simpl in Hd; destruct (_is_leap (year dt)); simpl in Hd;
      lia. }
  unfold format_date, four_digits. rewrite !no_space_app.
  rewrite !no_space_two_digits by (Z.div_mod_to_equations; lia). done.
Qed.

Lemma no_space_format_hhmm h m :
  0 <= h <= 23 -> 0 <= m <= 59 -> no_space (format_hhmm h m) = true.
Proof.
  intros Hh Hm. unfold format_hhmm. rewrite no_space_app.
  by rewrite !no_space_two_digits by lia.
Qed.

Lemma strip_no_space s : no_space s = true -> strip s = s.
Proof.
  intros H. unfold strip. by rewrite lstrip_no_space, rstrip_no_space.
Qed.

Lemma strip_two_parts a b :
  no_space a = true -> a <> EmptyString ->
  no_space b = true -> b <> EmptyString ->
  strip (a ++ String " " b) = (a ++ String " " b)%string.
Proof.
  intros Ha Hane Hb Hbne. unfold strip.
  assert (Hl : lstrip (a ++ String " " b) = (a ++ String " " b)%string).
  { destruct a as [|c a]; [done|]. simpl in Ha.
    apply andb_true_iff in Ha as [Hc _]. apply negb_true_iff in Hc.
    rewrite append_cons. cbn [lstrip]. by rewrite Hc. }
  rewrite Hl.
  assert (Hr : rstrip (String " " b) = String " " b).
  { simpl. rewrite (rstrip_no_space b Hb). by destruct b. }
  rewrite rstrip_app; rewrite Hr; done.
Qed.

(** The parser reads its argument through [strip] only. *)
Lemma parse_date_time_strip s1 s2 :
  strip s1 = strip s2 -> parse_date_time s1 = parse_date_time s2.
Proof. unfold parse_date_time. by intros ->. Qed.

End spaces.

(** ** The parser, continued *)

(** X11.  Round trip: every date that the [date] type admits, written as
    MM/DD/YYYY with leading zeros, is parsed to that date with no time; and
    followed by a space and a time of day written as HHMM it is parsed to
    that date and that time. *)
Theorem parse_date_time_round_trip (dt : date) (h m : Z) :
  date_ok dt = true -> 0 <= h <= 23 -> 0 <= m <= 59 ->
  parse_date_time (format_date dt) = Ret (Some dt, None, None)
  /\ parse_date_time (format_date dt ++ " " ++ format_hhmm h m)
     = Ret (Some dt, Some (time_hm h m), None).
Proof.
  intros Hok Hh Hm.
  pose proof (no_space_format_date dt Hok) as Hd.
  pose proof (no_space_format_hhmm h m Hh Hm) as Ht.
  assert (Hdne : format_date dt <> EmptyString) by done.
  assert (Htne : format_hhmm h m <> EmptyString) by done.
  split.
  - unfold parse_date_time.
    rewrite (strip_no_space _ Hd), (split_no_space _ Hd Hdne).
    destruct (format_date dt) eqn:E; [done|]. rewrite <- E.
    simpl. by rewrite (strptime_date_format dt Hok).
  - unfold parse_date_time.
    change (format_date dt ++ " " ++ format_hhmm h m)%string
      with (format_date dt ++ String " " (format_hhmm h m))%string.
    rewrite (strip_two_parts _ _ Hd Hdne Ht Htne).
    rewrite (split_app_space _ _ Hd Hdne), (split_no_space _ Ht Htne).
    destruct (format_date dt ++ String " " (format_hhmm h m))%string eqn:E.
    { by destruct (format_date dt). }
    simpl. rewrite (strptime_date_format dt Hok).
    by rewrite (strptime_time_format h m Hh Hm).
Qed.

Lemma parse_date_time_round_trip_witness :
  date_ok (mk_date 2024 2 29) = true /\ 0 <= 16 <= 23 /\ 0 <= 59 <= 59
  /\ parse_date_time "02/29/2024 1659"
     = Ret (Some (mk_date 2024 2 29), Some (time_hm 16 59), None).
Proof.
  split; [reflexivity|]. split; [lia|]. split; [lia|].
  exact (proj2 (parse_date_time_round_trip (mk_date 2024 2 29) 16 59
                  eq_refl ltac:(lia) ltac:(lia))).
Defined.

(** X12.  Spaces before and after a token are ignored: the parser gives the
    same result with any amount of them added. *)
Theorem parse_date_time_ignores_outer_spaces (w1 s w2 : string) :
  whitespace_only w1 = true -> whitespace_only w2 = true ->
  parse_date_time (w1 ++ s ++ w2) = parse_date_time s.
Proof.
  intros H1 H2. apply parse_date_time_strip.
  unfold strip at 1. rewrite (lstrip_app_ws _ _ H1).
  fold (strip (s ++ w2)). by apply strip_app_ws.
Qed.

Lemma parse_date_time_ignores_outer_spaces_witness :
  whitespace_only "  " = true /\ whitespace_only " " = true
  /\ parse_date_time ("  " ++ "09/18/2025 0700" ++ " ")
     = parse_date_time "09/18/2025 0700".
Proof.
  split; [reflexivity|]. split; [reflexivity|].
  exact (parse_date_time_ignores_outer_spaces "  " "09/18/2025 0700" " "
           eq_refl eq_refl).
Defined.

Lemma strptime_time_Ret (p : string) (x : time) :
  strptime_time p = Ret x ->
  time_ok x = true /\ second x = 0 /\ microsecond x = 0.
Proof.
  unfold strptime_time. destruct (full_match re_HM p) as [v|e]; [|done].
  simpl. destruct (time_ok (time_hm v.1 v.2)) eqn:Hok; [|done].
  by intros [= <-].
Qed.

(** X13.  When the parser succeeds: exactly when the stripped token has one
    part that [strptime] reads as a date, and then there is no time, or two
    parts that it reads as a date and as a time. *)
Theorem parse_date_time_success_iff
    (s : string) (dt : date) (tm : option time) :
  parse_date_time s = Ret (Some dt, tm, None)
  <-> (exists p0,
         split (strip s) = [p0] /\ strptime_date p0 = Ret dt /\ tm = None)
      \/ (exists p0 p1 x,
            split (strip s) = [p0; p1] /\ strptime_date p0 = Ret dt
            /\ strptime_time p1 = Ret x /\ tm = Some x).
Proof.
  pose proof (parse_date_time_cases s) as Hc. split.
  - intros Hp.
    destruct Hc as [[_ Hr]|(p0 & rest & Hsp & [(msg & _ & Hr)|(dt' & Hd & _ & Hr)])].
    + rewrite Hr in Hp. discriminate.
    + rewrite Hr in Hp. discriminate.
    + destruct rest as [|p1 [|p2 rest]].
      * rewrite Hr in Hp. injection Hp as -> <-. left. eauto.
      * destruct Hr as [(msg & _ & Hr)|(x & Hx & _ & Hr)];
          rewrite Hr in Hp; [discriminate|].
        injection Hp as -> <-. right. exists p0, p1, x. eauto.
      * rewrite Hr in Hp. discriminate.
  - intros [(p0 & Hsp & Hd & ->)|(p0 & p1 & x & Hsp & Hd & Hx & ->)].
    + destruct Hc as [[He _]|(p0' & rest & Hsp' & Hr)].
      { by rewrite He in Hsp. }
      rewrite Hsp in Hsp'. injection Hsp' as <- <-.
      destruct Hr as [(msg & Hr & _)|(dt' & Hd' & _ & Hr)]; [congruence|].
      rewrite Hd in Hd'. by injection Hd' as <-.
    + destruct Hc as [[He _]|(p0' & rest & Hsp' & Hr)].
      { by rewrite He in Hsp. }
      rewrite Hsp in Hsp'. injection Hsp' as <- <-.
      destruct Hr as [(msg & Hr & _)|(dt' & Hd' & _ & Hr)]; [congruence|].
      rewrite Hd in Hd'. injection Hd' as <-.
      destruct Hr as [(msg & Hr & _)|(x' & Hx' & _ & Hr)]; [congruence|].
      rewrite Hx in Hx'. by injection Hx' as <-.
Qed.

(** X14.  A time that the parser returns has whole minutes: its seconds and
    microseconds are 0, its hour is from 0 to 23 and its minute from 0 to
    59.  The entry is therefore in the normal window exactly when its date
    is a weekday and its hour is from 8 to 16. *)
Theorem parsed_entry_classification (s : string) (dt : date) (x : time) :
  parse_date_time s = Ret (Some dt, Some x, None) ->
  second x = 0 /\ microsecond x = 0
  /\ 0 <= hour x <= 23 /\ 0 <= minute x <= 59
  /\ is_normal_window dt (Some x)
     = is_weekday dt && (8 <=? hour x) && (hour x <=? 16).
Proof.
  intros Hp.
  assert (Hx : time_ok x = true /\ second x = 0 /\ microsecond x = 0).
  { destruct (parse_date_time_cases s)
      as [[_ Hr]|(p0 & rest & _ & [(msg & _ & Hr)|(dt' & _ & _ & Hr)])].
    - rewrite Hr in Hp. discriminate.
    - rewrite Hr in Hp. discriminate.
    - destruct rest as [|p1 [|p2 rest]].
      + rewrite Hr in Hp. discriminate.
      + destruct Hr as [(msg & _ & Hr)|(x' & Hx' & _ & Hr)];
          rewrite Hr in Hp; [discriminate|].
        injection Hp as _ <-. by apply (strptime_time_Ret p1).
      + rewrite Hr in Hp. discriminate. }
  destruct Hx as (Hok & Hsec & Hus).
  pose proof Hok as (Hh & Hm & _)%time_ok_spec.
  split; [done|]. split; [done|]. split; [done|]. split; [done|].
  unfold is_normal_window. destruct (is_weekday dt); simpl; [|done].
  apply eq_true_iff_eq. rewrite (window_hours x Hok).
  rewrite andb_true_iff, !Z.leb_le. lia.
Qed.

Lemma parsed_entry_classification_witness :
  parse_date_time "09/18/2025 1659"
  = Ret (Some (mk_date 2025 9 18), Some (time_hm 16 59), None)
  /\ is_normal_window (mk_date 2025 9 18) (Some (time_hm 16 59))
     = is_weekday (mk_date 2025 9 18) && (8 <=? 16) && (16 <=? 16).
Proof.
  assert (H : parse_date_time "09/18/2025 1659"
              = Ret (Some (mk_date 2025 9 18), Some (time_hm 16 59), None))
    by reflexivity.
  split; [exact H|].
  exact (proj2 (proj2 (proj2 (proj2
           (parsed_entry_classification _ _ _ H))))).
Defined.

(** ** Sorting pairs *)

Section sorting_pairs.
Implicit Types (a b x y z : date * option time)
  (l r : list (date * option time)).

Lemma conflictb_sym a b : conflictb a b = conflictb b a.
Proof.
  unfold conflictb. rewrite xorb_comm. f_equal.
  apply bool_decide_ext. split; congruence.
Qed.

Lemma pair_lt_conflict y x :
  conflictb y x = true -> pair_lt y x = Fails TypeError.
Proof.
  unfold conflictb, pair_lt. intros H.
  apply andb_true_iff in H as [H1 H2]. apply bool_decide_eq_true in H1.
  rewrite decide_True by done.
  destruct y.2, x.2; try done.
Qed.

(** Without a conflict the comparison returns, and its answer places the
    two dates. *)
Lemma pair_lt_ok y x :
  conflictb y x = false ->
  exists res : bool, pair_lt y x = Done res
    /\ (res = true -> date_le y.1 x.1)
    /\ (res = false ->
        date_le x.1 y.1
        /\ (date_ltb x.1 y.1 = true
            \/ (x.1 = y.1
                /\ bool_decide (x.2 = None) = bool_decide (y.2 = None)))).
Proof.
  unfold conflictb, pair_lt. intros H.
  destruct (decide (y.1 = x.1)) as [E|E].
  - rewrite bool_decide_eq_true_2 in H by done. simpl in H.
    assert (Hle : date_le x.1 y.1) by (rewrite E; apply date_le_refl).
    destruct y.2 as [ty|], x.2 as [tx|]; try done.
    + destruct (decide (ty = tx)).
      * exists false. split; [done|]. split; [done|]. intros _.
        split; [done|]. right. done.
      * exists (time_ltb ty tx). split; [done|]. split.
        -- intros _. rewrite E. apply date_le_refl.
        -- intros _. split; [done|]. right. done.
    + exists false. split; [done|]. split; [done|]. intros _.
      split; [done|]. right. done.
  - exists (date_ltb y.1 x.1). split; [done|]. split.
    + intros Hlt. unfold date_le. apply date_ltb_leb_neq in Hlt. tauto.
    + intros Hlt.
      assert (Hx : date_ltb x.1 y.1 = true).
      { apply date_ltb_leb_neq. split; [|congruence].
        by rewrite date_leb_ltb, Hlt. }
      split; [|by left]. unfold date_le. apply date_ltb_leb_neq in Hx. tauto.
Qed.

Lemma existsb_conflict x l :
  existsb (conflictb x) l = true <-> exists z, z ∈ l /\ conflictb x z = true.
Proof.
  rewrite existsb_exists. split; intros (z & Hz & Hc); exists z;
    (split; [by apply list_elem_of_In|done]).
Qed.

Lemma existsb_conflict_false x l :
  existsb (conflictb x) l = false <-> forall z, z ∈ l -> conflictb x z = false.
Proof.
  rewrite <- not_true_iff_false, existsb_conflict. split.
  - intros H z Hz. apply not_true_iff_false. intros Hc. apply H. eauto.
  - intros H (z & Hz & Hc). rewrite (H z Hz) in Hc. done.
Qed.

Lemma mixedb_false l :
  mixedb l = false ->
  forall a b, a ∈ l -> b ∈ l -> a <> b -> conflictb a b = false.
Proof.
  induction l as [|x l IH]; intros H a b Ha Hb Hne; [inversion Ha|].
  simpl in H. apply orb_false_iff in H as [H1 H2].
  rewrite existsb_conflict_false in H1.
  apply elem_of_cons in Ha as [->|Ha]; apply elem_of_cons in Hb as [->|Hb].
  - done.
  - by apply H1.
  - rewrite conflictb_sym. by apply H1.
  - by apply IH.
Qed.

Lemma conflictb_irrefl a : conflictb a a = false.
Proof. unfold conflictb. by rewrite xorb_nilpotent, andb_false_r. Qed.

Lemma insert_sorted_spec x r :
  StronglySorted by_date r ->
  (forall a b, a ∈ r -> b ∈ r -> conflictb a b = false) ->
  (existsb (conflictb x) r = true -> insert_sorted x r = Fails TypeError)
  /\ (existsb (conflictb x) r = false ->
      exists r', insert_sorted x r = Done r'
        /\ r' ≡ₚ x :: r /\ StronglySorted by_date r').
Proof.
  intros Hs. induction Hs as [|y r Hs IH Hy]; intros Hnc.
  - split; [done|]. intros _. exists [x]. split; [done|]. split; [done|].
    repeat constructor.
  - assert (Hnc' : forall a b, a ∈ r -> b ∈ r -> conflictb a b = false).
    { intros a b Ha Hb. apply Hnc; by right. }
    specialize (IH Hnc') as [IH1 IH2].
    cbn [existsb insert_sorted].
    destruct (conflictb y x) eqn:C.
    { rewrite (pair_lt_conflict y x C). split; [done|].
      rewrite conflictb_sym, C. done. }
    rewrite (conflictb_sym x y), C, orb_false_l.
    destruct (pair_lt_ok y x C) as (b & -> & Hb1 & Hb2). simpl.
    destruct b.
    + specialize (Hb1 eq_refl). split.
      * intros Hex. by rewrite (IH1 Hex).
      * intros Hex. destruct (IH2 Hex) as (r' & -> & Hp & Hs'). simpl.
        exists (y :: r'). split; [done|]. split.
        -- rewrite Hp. apply Permutation_swap.
        -- constructor; [done|]. rewrite Hp. by constructor.
    + destruct (Hb2 eq_refl) as [Hle Hcase].
      assert (Hfree : forall z, z ∈ r -> conflictb x z = false).
      { intros z Hz. eapply Forall_forall in Hy; [|exact Hz].
        unfold by_date, date_le in Hy.
        destruct Hcase as [Hlt|[Heq Hsome]].
        - unfold conflictb. rewrite bool_decide_eq_false_2; [done|].
          intros E. rewrite E in Hlt.
          apply date_ltb_leb_neq in Hlt as [Hlt Hne].
          apply Hne. by apply (anti_symm date_le).
        - pose proof (Hnc y z ltac:(by left) ltac:(by right)) as Hyz.
          unfold conflictb in *. by rewrite Heq, Hsome. }
      assert (Hex : existsb (conflictb x) r = false)
        by by apply existsb_conflict_false.
      split; [by rewrite Hex|]. intros _.
      exists (x :: y :: r). split; [done|]. split; [done|].
      constructor; [by constructor|]. constructor; [done|].
      apply Forall_forall. intros z Hz.
      eapply Forall_forall in Hy; [|exact Hz].
      unfold by_date in *. by etrans.
Qed.

(** The outcome of the sort depends on the list alone: it fails exactly
    when the list holds two pairs with one date, one with a time and one
    without, and otherwise returns the list in ascending order of date. *)
Lemma sorted_pairs_spec l :
  (mixedb l = true -> sorted_pairs l = Fails TypeError)
  /\ (mixedb l = false ->
      exists r, sorted_pairs l = Done r
        /\ r ≡ₚ l /\ StronglySorted by_date r).
Proof.
  induction l as [|x l [IH1 IH2]].
  - split; [done|]. intros _. exists []. split; [done|]. split; [done|].
    constructor.
  - cbn [mixedb sorted_pairs]. destruct (mixedb l) eqn:Hm.
    + rewrite orb_true_r, (IH1 eq_refl). split; done.
    + rewrite orb_false_r.
      destruct (IH2 eq_refl) as (r & -> & Hp & Hs). simpl.
      assert (Hnc : forall a b, a ∈ r -> b ∈ r -> conflictb a b = false).
      { intros a b Ha Hb. destruct (decide (a = b)) as [->|Hne].
        - apply conflictb_irrefl.
        - rewrite Hp in Ha, Hb. by apply (mixedb_false l Hm). }
      assert (Hex : existsb (conflictb x) r = existsb (conflictb x) l).
      { apply eq_true_iff_eq. rewrite !existsb_conflict.
        by setoid_rewrite Hp. }
      destruct (insert_sorted_spec x r Hs Hnc) as [I1 I2].
      rewrite <- Hex. split.
      * done.
      * intros Hf. destruct (I2 Hf) as (r' & -> & Hp' & Hs').
        exists r'. split; [done|]. split; [by rewrite Hp', Hp|done].
Qed.

Lemma mixedb_true l :
  mixedb l = true <->
  exists (dt : date) (tm : time), (dt, None) ∈ l /\ (dt, Some tm) ∈ l.
Proof.
  assert (Hc : forall a b, conflictb a b = true ->
                 exists (dt : date) (tm : time),
                   ((dt, None) = a /\ (dt, Some tm) = b)
                   \/ ((dt, None) = b /\ (dt, Some tm) = a)).
  { intros [d1 [t1|]] [d2 [t2|]]; unfold conflictb; simpl; intros H;
      apply andb_true_iff in H as [H1 H2];
      apply bool_decide_eq_true in H1; subst; try done.
    - exists d2, t1. by right.
    - exists d2, t2. by left. }
  induction l as [|y l IH]; simpl.
  - split; [done|]. intros (dt & x & H & _). inversion H.
  - rewrite orb_true_iff, existsb_conflict, IH. split.
    + intros [(z & Hz & C)|(dt & x & H1 & H2)].
      * destruct (Hc _ _ C) as (dt & x & [[<- <-]|[<- <-]]);
          exists dt, x; split; (by left) || (by right).
      * exists dt, x. split; by right.
    + intros (dt & x & H1 & H2).
      apply elem_of_cons in H1 as [<-|H1]; apply elem_of_cons in H2 as [E|H2].
      * done.
      * left. exists (dt, Some x). split; [done|].
        unfold conflictb. simpl. by rewrite bool_decide_eq_true_2.
      * left. exists (dt, None). split; [done|]. rewrite <- E.
        unfold conflictb. simpl. by rewrite bool_decide_eq_true_2.
      * right. eauto.
Qed.

End sorting_pairs.

(** ** The handler *)

Section handler.
Variables start_ end_ : date.
Implicit Types (raw : list string) (l : list (date * option time)).

Lemma parse_date_time_shape (s : string) :
  (exists dt tm, parse_date_time s = Ret (Some dt, tm, None))
  \/ (exists msg, parse_date_time s = Ret (None, None, Some msg)
                  /\ is_empty msg = false).
Proof.
  destruct (parse_date_time_cases s)
    as [[_ ->]|(p0 & rest & _ & [(msg & _ & ->)|(dt & _ & _ & Hr)])].
  - right. by eexists.
  - right. by eexists.
  - destruct rest as [|p1 [|p2 rest]].
    + left. eauto.
    + destruct Hr as [(msg & _ & ->)|(tm & _ & _ & ->)].
      * right. by eexists.
      * left. eauto.
    + right. rewrite Hr. by eexists.
Qed.

Lemma omap_cons_eq {A B} (f : A -> option B) (x : A) (xs : list A) :
  omap f (x :: xs)
  = match f x with Some y => y :: omap f xs | None => omap f xs end.
Proof. reflexivity. Qed.

Lemma parsed_pairs_cons p raw :
  parsed_pairs (p :: raw)
  = match parse_date_time p with
    | Ret (Some dt, tm, None) => (dt, tm) :: parsed_pairs raw
    | _ => parsed_pairs raw
    end.
Proof.
  unfold parsed_pairs. rewrite omap_cons_eq.
  by destruct (parse_date_time p) as [[[[dt|] tm] [m|]]|e].
Qed.

Lemma error_lines_cons p raw :
  error_lines (p :: raw)
  = match parse_date_time p with
    | Ret (None, _, Some m) => (p ++ ": " ++ m)%string :: error_lines raw
    | _ => error_lines raw
    end.
Proof.
  unfold error_lines. rewrite omap_cons_eq.
  by destruct (parse_date_time p) as [[[[dt|] tm] [m|]]|e].
Qed.

(** Every token is either parsed or reported. *)
Lemma parsed_or_reported raw :
  (length (parsed_pairs raw) + length (error_lines raw) = length raw)%nat.
Proof.
  induction raw as [|p raw IH]; [done|].
  rewrite parsed_pairs_cons, error_lines_cons.
  destruct (parse_date_time_shape p) as [(dt & tm & ->)|(msg & -> & _)];
    simpl; lia.
Qed.

Lemma parse_all_spec raw parsed errors :
  parse_all raw parsed errors
  = Done (parsed ++ ((fun p => (Some p.1, p.2)) <$> parsed_pairs raw),
          errors ++ error_lines raw).
Proof.
  revert parsed errors. induction raw as [|p raw IH]; intros parsed errors.
  - simpl. by rewrite !app_nil_r.
  - rewrite parsed_pairs_cons, error_lines_cons. cbn [parse_all].
    destruct (parse_date_time_shape p) as [(dt & tm & ->)|(msg & -> & Hm)].
    + simpl. rewrite IH. by rewrite <- app_assoc.
    + simpl. rewrite Hm. simpl. rewrite IH. by rewrite <- app_assoc.
Qed.

Lemma select_spec keep l :
  select keep start_ end_ ((fun p => (Some p.1, p.2)) <$> l)
  = Done (filter (fun p => in_range start_ end_ p.1 = keep) l).
Proof.
  induction l as [|[dt tm] l IH]; [done|].
  rewrite fmap_cons. cbn [select fst snd]. rewrite IH.
  cbn [mbind run_bind]. rewrite filter_cons. cbn [fst].
  change (date_leb start_ dt && date_leb dt end_)
    with (in_range start_ end_ dt).
  destruct (in_range start_ end_ dt), keep; simpl;
    first [done | by case_decide].
Qed.

Lemma Schedule_init_filter l :
  Schedule_init start_ end_
    (filter (fun p => in_range start_ end_ p.1 = true) l)
  = Schedule_init start_ end_ l.
Proof. unfold Schedule_init. by rewrite by_day_filter. Qed.

(** The outcomes of the handler. *)
Lemma calculate_outcomes raw :
  let out := out_of_range start_ end_ raw in
  let inn := filter (fun p => in_range start_ end_ p.1 = true)
                    (parsed_pairs raw) in
  (date_ltb end_ start_ = true
   /\ calculate start_ end_ raw = Done [st_error msg_range])
  \/ (date_ltb end_ start_ = false /\ raw = []
      /\ calculate start_ end_ raw = Done [st_error msg_no_dates])
  \/ (date_ltb end_ start_ = false /\ error_lines raw <> []
      /\ calculate start_ end_ raw
         = Done [st_error (msg_invalid (error_lines raw))])
  \/ (date_ltb end_ start_ = false /\ raw <> [] /\ error_lines raw = []
      /\ mixedb out = true
      /\ calculate start_ end_ raw = Fails TypeError)
  \/ (date_ltb end_ start_ = false /\ raw <> [] /\ error_lines raw = []
      /\ mixedb out = false /\ inn = []
      /\ exists shown, shown_ignored out shown
           /\ calculate start_ end_ raw
              = Done (shown ++ [st_error msg_none_in_range]))
  \/ (date_ltb end_ start_ = false /\ raw <> [] /\ error_lines raw = []
      /\ mixedb out = false /\ inn <> []
      /\ exists shown s, shown_ignored out shown
           /\ Schedule_init start_ end_ (parsed_pairs raw) = Ret s
           /\ calculate start_ end_ raw = Done (shown ++ [show_results s])).
Proof.
  cbv zeta. unfold calculate.
  destruct (date_ltb end_ start_) eqn:Hlt; [by left|]. right.
  destruct raw as [|p0 raw0]; [by left|]. right. cbv iota.
  set (raw := p0 :: raw0).
  assert (Hne : raw <> []) by done. clearbody raw.
  rewrite parse_all_spec. cbn [mbind run_bind fst snd app].
  destruct (error_lines raw) as [|e errs] eqn:Herr; [|by left].
  right. rewrite !select_spec. cbn [mbind run_bind].
  fold (out_of_range start_ end_ raw).
  remember (out_of_range start_ end_ raw) as out eqn:Hout.
  remember (filter (fun p => in_range start_ end_ p.1 = true)
                   (parsed_pairs raw)) as inn eqn:Hinn.
  assert (Hshown :
    (mixedb out = true
     /\ match out with
        | [] => Done []
        | _ :: _ => l ← sorted_pairs out; Done [st_ignored l]
        end = Fails TypeError)
    \/ (mixedb out = false
        /\ exists shown, shown_ignored out shown
             /\ match out with
                | [] => Done []
                | _ :: _ => l ← sorted_pairs out; Done [st_ignored l]
                end = Done shown)).
  { destruct (sorted_pairs_spec out) as [S1 S2].
    destruct (mixedb out) eqn:Hm.
    - left. split; [done|]. clear Hout. destruct out; [done|].
      by rewrite (S1 eq_refl).
    - right. split; [done|]. destruct (S2 eq_refl) as (r & Hr & Hp & Hs).
      clear Hout. destruct out as [|o out'].
      + exists []. split; [by left|done].
      + exists [st_ignored r]. split; [|by rewrite Hr].
        right. by exists r. }
  destruct Hshown as [[Hm ->]|(Hm & shown & Hsh & ->)]; [by left|].
  right. cbn [mbind run_bind].
  destruct inn as [|i inn'].
  - left. repeat (split; [done|]). by exists shown.
  - right. repeat (split; [done|]).
    destruct (Schedule_init_Ret start_ end_ (parsed_pairs raw) Hlt) as [s Hs].
    exists shown, s. split; [done|]. split; [done|].
    rewrite Hinn, Schedule_init_filter, Hs. done.
Qed.

End handler.

Section handler_shown.
Implicit Types (calls shown : list ui_call).

(** What is shown for the pairs out of range holds no error and no
    results. *)
Lemma shown_ignored_calls out shown c :
  shown_ignored out shown -> c ∈ shown ->
  exists lines, c = st_ignored lines /\ out <> [] /\ lines ≡ₚ out
                /\ StronglySorted by_date lines.
Proof.
  intros [[_ ->]|(lines & Hne & -> & Hp & Hs)] Hc.
  - by apply elem_of_nil in Hc.
  - apply list_elem_of_singleton in Hc. subst. by exists lines.
Qed.

Lemma total_of_count_pos n : (1 <= n)%nat -> 4 <= total_of_count n.
Proof. unfold total_of_count. destruct n as [|[|n]]; lia. Qed.

End handler_shown.

(** X15.  The handler reports every rejected token at once: when the range
    is in order and some token is rejected, it shows one error whose lines
    are those of all rejected tokens, in input order, and nothing else.  A
    line names the token and carries the message of the parser; every
    token is either parsed or reported. *)
Theorem calculate_reports_every_error
    (start_ end_ : date) (raw : list string) :
  date_ltb end_ start_ = false -> error_lines raw <> [] ->
  calculate start_ end_ raw
  = Done [st_error (msg_invalid (error_lines raw))]
  /\ (forall line, line ∈ error_lines raw
        <-> exists p m, p ∈ raw
              /\ parse_date_time p = Ret (None, None, Some m)
              /\ line = (p ++ ": " ++ m)%string)
  /\ (length (parsed_pairs raw) + length (error_lines raw) = length raw)%nat.
Proof.
  intros Hlt Herr. split; [|split].
  - destruct (calculate_outcomes start_ end_ raw)
      as [[H _]|[(_ & -> & _)|[(_ & _ & H)|[(_ & _ & H & _)|
          [(_ & _ & H & _)|(_ & _ & H & _)]]]]]; try congruence; done.
  - intros line. unfold error_lines. rewrite list_elem_of_omap. split.
    + intros (p & Hp & Hm). exists p.
      destruct (parse_date_time_shape p) as [(dt & tm & Hr)|(msg & Hr & _)];
        rewrite Hr in Hm; [done|].
      exists msg. injection Hm as <-. done.
    + intros (p & m & Hp & Hr & ->). exists p. by rewrite Hr.
  - apply parsed_or_reported.
Qed.

Lemma calculate_reports_every_error_witness :
  date_ltb ex_end ex_start = false
  /\ error_lines ["09/18/2025 0700"; "13/40/2025"; "09/19/2025 25"]%string
     <> []
  /\ calculate ex_start ex_end
       ["09/18/2025 0700"; "13/40/2025"; "09/19/2025 25"]%string
     = Done [st_error (msg_invalid
         (error_lines
            ["09/18/2025 0700"; "13/40/2025"; "09/19/2025 25"]%string))].
Proof.
  assert (H1 : date_ltb ex_end ex_start = false) by reflexivity.
  assert (H2 : error_lines
                 ["09/18/2025 0700"; "13/40/2025"; "09/19/2025 25"]%string
               <> []) by (vm_compute; discriminate).
  split; [exact H1|]. split; [exact H2|].
  exact (proj1 (calculate_reports_every_error ex_start ex_end _ H1 H2)).
Defined.

(** X16.  The handler fails in one case only, and then with [TypeError]:
    the range is in order, every token is parsed, and two parsed pairs out
    of the range have the same date, one with a time and one without;
    sorting the ignored pairs then compares [None] with a time. *)
Theorem calculate_fails_iff
    (start_ end_ : date) (raw : list string) (f : failure) :
  calculate start_ end_ raw = Fails f
  <-> f = TypeError
      /\ date_ltb end_ start_ = false
      /\ error_lines raw = []
      /\ exists (dt : date) (tm : time),
           (dt, None) ∈ out_of_range start_ end_ raw
           /\ (dt, Some tm) ∈ out_of_range start_ end_ raw.
Proof.
  rewrite <- mixedb_true.
  destruct (calculate_outcomes start_ end_ raw)
    as [[Hlt H]|[(Hlt & Hraw & H)|[(Hlt & Herr & H)|[(Hlt & _ & Herr & Hm & H)|
        [(Hlt & _ & Herr & Hm & _ & shown & _ & H)
        |(Hlt & _ & Herr & Hm & _ & shown & s & _ & _ & H)]]]]];
    rewrite H; split; try done.
  - intros (_ & Hlt' & _). congruence.
  - intros (_ & _ & _ & Hmix). by subst raw.
  - intros (_ & _ & Herr' & _). done.
  - intros [= <-]. done.
  - intros (-> & _). done.
  - intros (_ & _ & _ & Hmix). congruence.
  - intros (_ & _ & _ & Hmix). congruence.
Qed.

(** Two ignored pairs for 09/21/2025, one with a time and one without. *)
Example calculate_type_error :
  calculate ex_start ex_end
    ["09/18/2025 0700"; "09/21/2025"; "09/21/2025 0700"]%string
  = Fails TypeError.
Proof. vm_compute. reflexivity. Qed.

(** X17.  Whenever the handler shows results, they are those of the
    schedule built from all the parsed pairs (filtering them by range
    beforehand changes nothing); at least one entry is counted, the total
    is at least 4, and no error is shown beside them. *)
Theorem calculate_results
    (start_ end_ : date) (raw : list string) (calls : list ui_call)
    (dry normal after total : Z) (counted : list (Entry * bool)) :
  calculate start_ end_ raw = Done calls ->
  st_results dry normal after total counted ∈ calls ->
  exists s,
    Schedule_init start_ end_ (parsed_pairs raw) = Ret s
    /\ st_results dry normal after total counted = show_results s
    /\ entries s <> []
    /\ 4 <= total
    /\ forall msg, st_error msg ∉ calls.
Proof.
  intros Hc Hin.
  destruct (calculate_outcomes start_ end_ raw)
    as [[Hlt H]|[(Hlt & Hraw & H)|[(Hlt & Herr & H)|[(Hlt & _ & Herr & Hm & H)|
        [(Hlt & _ & Herr & Hm & _ & shown & Hsh & H)
        |(Hlt & _ & Herr & Hm & Hinn & shown & s & Hsh & Hs & H)]]]]];
    rewrite H in Hc; try discriminate; injection Hc as <-.
  - by apply list_elem_of_singleton in Hin.
  - by apply list_elem_of_singleton in Hin.
  - by apply list_elem_of_singleton in Hin.
  - apply elem_of_app in Hin as [Hin|Hin].
    + by destruct (shown_ignored_calls _ _ _ Hsh Hin) as (? & ? & _).
    + by apply list_elem_of_singleton in Hin.
  - exists s. split; [done|].
    assert (Heq : st_results dry normal after total counted = show_results s).
    { apply elem_of_app in Hin as [Hin|Hin].
      - by destruct (shown_ignored_calls _ _ _ Hsh Hin) as (? & ? & _).
      - by apply list_elem_of_singleton in Hin. }
    split; [done|].
    assert (Hne : entries s <> []).
    { destruct (filter _ (parsed_pairs raw)) as [|p inn] eqn:Hf; [done|].
      assert (Hp : p ∈ filter (fun p => in_range start_ end_ p.1 = true)
                         (parsed_pairs raw)) by (rewrite Hf; by left).
      apply list_elem_of_filter in Hp as [Hr Hp].
      assert (Hd : p.1 ∈ d <$> entries s).
      { apply (stored_dates start_ end_ _ s _ Hs). split; [done|].
        destruct (first_time p.1 (parsed_pairs raw)) eqn:E; [eauto|].
        apply first_time_None in E. exfalso. apply E.
        by apply list_elem_of_fmap_2. }
      intros He. rewrite He in Hd. by apply elem_of_nil in Hd. }
    split; [done|]. split.
    + injection Heq as _ _ _ -> _.
      rewrite (total_count start_ end_ _ s Hs). apply total_of_count_pos.
      destruct (entries s); [done|simpl; lia].
    + intros msg Hmsg. apply elem_of_app in Hmsg as [Hmsg|Hmsg].
      * by destruct (shown_ignored_calls _ _ _ Hsh Hmsg) as (? & ? & _).
      * by apply list_elem_of_singleton in Hmsg.
Qed.

Lemma calculate_results_witness :
  calculate ex_start ex_end
    ["09/21/2025"; "09/18/2025 0700"; "09/19/2025 1800"; "09/20/2025"]%string
  = Done [st_ignored [(mk_date 2025 9 21, None)]; show_results ex_schedule]
  /\ show_results ex_schedule
     ∈ [st_ignored [(mk_date 2025 9 21, None)]; show_results ex_schedule]
  /\ exists s,
       Schedule_init ex_start ex_end
         (parsed_pairs ["09/21/2025"; "09/18/2025 0700"; "09/19/2025 1800";
                        "09/20/2025"]%string) = Ret s
       /\ show_results ex_schedule = show_results s
       /\ entries s <> []
       /\ 4 <= total_monitoring_hours ex_schedule
       /\ forall msg,
            st_error msg
              ∉ [st_ignored [(mk_date 2025 9 21, None)];
                 show_results ex_schedule].
Proof.
  assert (H1 : calculate ex_start ex_end
                 ["09/21/2025"; "09/18/2025 0700"; "09/19/2025 1800";
                  "09/20/2025"]%string
               = Done [st_ignored [(mk_date 2025 9 21, None)];
                       show_results ex_schedule])
    by (vm_compute; reflexivity).
  assert (H2 : show_results ex_schedule
                 ∈ [st_ignored [(mk_date 2025 9 21, None)];
                    show_results ex_schedule]) by (right; left).
  split; [exact H1|]. split; [exact H2|].
  exact (calculate_results ex_start ex_end _ _ _ _ _ _ _ H1 H2).
Defined.


